(** * SR-bot: eligibility queue, batch builder and claim orchestrator

    A shallow embedding of the storage-rent bot
    (src/services/ergoNode.ts, src/services/transactionService.ts,
    src/services/storageRentBot.ts, first variant of each file) together
    with the properties its specification states about it.

    Conventions.
    - [bigint] values are integers of [Z].
    - [number] values that hold block heights, offsets, sizes and counters
      are integers of [Z] as well; the one [number] product that is turned
      into a [bigint] amount goes through [JSNumber.mul], which writes out
      the rounding of a double.
    - [await]ed collaborators (HTTP client, database, signer) are functions
      on an abstract world [W]: they return an outcome and the next world.
      An exception leaves the effects made so far in place.
    - Logging is not modelled. *)

From Stdlib Require Import ZArith List String Ascii Bool Lia DecimalString
  Permutation.
Import ListNotations.
Open Scope Z_scope.

(** ** JavaScript numbers holding integers *)

Module JSNumber.

(** Nearest double of an integer, ties to even: integers below [2^53] in
    magnitude are doubles already; above, the 53 leading bits are kept.
    Valid for finite results (magnitude below [2^1024]). *)
Definition round53 (z : Z) : Z :=
  let a := Z.abs z in
  if a <? 2 ^ 53 then z
  else
    let e := Z.log2 a - 52 in
    let q := a / 2 ^ e in
    let r := a mod 2 ^ e in
    let half := 2 ^ (e - 1) in
    let q' := if r <? half then q
              else if half <? r then q + 1
              else if Z.even q then q else q + 1 in
    Z.sgn z * (q' * 2 ^ e).

(** [a * b] on two numbers that hold integers. *)
Definition mul (a b : Z) : Z := round53 (a * b).

End JSNumber.

(** [BigInt(n)] of a number that holds an integer. *)
Definition BigInt (n : Z) : Z := n.

(** ** types.ts *)

Record Asset := { tokenId : string; amount : Z }.

Inductive BoxStatus :=
  pending | queued | claimed | insufficient_funds | box_error.

Record EligibleBox := {
  boxId : string;
  creationHeight : Z;
  currentHeight : Z;
  boxSize : Z;
  value : Z;
  rentFee : Z;
  status : BoxStatus;
  ergoTree : string;
  assets : list Asset;
  additionalRegisters : list (string * string)
}.

(** A box as the node returns it ([BoxData], with the field
    [spentTransactionId] of the blockchain index). *)
Record BoxData := {
  bd_boxId : string;
  bd_value : Z;
  bd_ergoTree : string;
  bd_creationHeight : Z;
  bd_assets : option (list Asset);
  bd_additionalRegisters : option (list (string * string));
  bd_spentTransactionId : option string
}.

Record Config := {
  maxBoxesPerTx : Z;
  rentFeePerByte : Z;
  minBoxValuePerByte : Z;
  minStorageRentAgeBlocks : Z;
  transactionFee : Z;
  dryRun : bool
}.

Inductive TxStatus := tx_pending | tx_confirmed | tx_failed.

Record TransactionResult := {
  tr_txId : string;
  tr_boxIds : list string;
  tr_totalRentCollected : Z;
  tr_transactionFee : Z;
  tr_status : TxStatus
}.

(** ** Exceptions *)

Inductive error :=
| ExternalError (msg : string)
    (* rejection raised by a collaborator: axios, sqlite, wasm *)
| FailedToGetCurrentHeight (cause : error)
| FailedToGetBox (id : string) (cause : error)
| FailedToCheckTransaction (txId : string) (cause : error)
| UndefinedErgoNode
| BoxNotFoundOrSpent (id : string)
| FailedToCreateInput (id : string) (cause : error)
| InsufficientFeeAvailable (available need : Z)
| NotEnoughRent (rent fee : Z)
| TransactionValidationFailed (errors : list string)
| FailedToSignAndSubmit
| BatchFailed (batchIndex : Z) (cause : error).

Inductive outcome (A : Type) :=
| Ok (a : A)
| Throw (e : error).
Arguments Ok {A} a.
Arguments Throw {A} e.

Definition is_ok {A} (o : outcome A) : bool :=
  match o with Ok _ => true | Throw _ => false end.

(** ** Effects: state passing with exceptions *)

Module Eff.

Definition M (S A : Type) : Type := S -> outcome A * S.

Definition ret {S A} (a : A) : M S A := fun s => (Ok a, s).

Definition throw {S A} (e : error) : M S A := fun s => (Throw e, s).

Definition bind {S A B} (m : M S A) (k : A -> M S B) : M S B :=
  fun s => match m s with
           | (Ok a, s') => k a s'
           | (Throw e, s') => (Throw e, s')
           end.

(** [try { m } catch (e) { h e }] *)
Definition try_catch {S A} (m : M S A) (h : error -> M S A) : M S A :=
  fun s => match m s with
           | (Ok a, s') => (Ok a, s')
           | (Throw e, s') => h e s'
           end.

(** [for (const x of xs) { await body x }] *)
Fixpoint for_each {S A} (xs : list A) (body : A -> M S unit) : M S unit :=
  match xs with
  | [] => ret tt
  | x :: rest => bind (body x) (fun _ => for_each rest body)
  end.

End Eff.
Import Eff.

Declare Scope eff_scope.
Delimit Scope eff_scope with eff.
Notation "x <- m ;; k" := (bind m (fun x => k))
  (at level 61, m at next level, right associativity) : eff_scope.
Notation "m ;;; k" := (bind m (fun _ => k))
  (at level 61, right associativity) : eff_scope.
Open Scope eff_scope.

(** An HTTP reply of the axios client: a response with its status and
    body, or a rejection carrying the response status when there is one. *)
Inductive http_reply (A : Type) :=
| HttpOk (status : Z) (data : A)
| HttpRejected (status : option Z) (msg : string).
Arguments HttpOk {A} status data.
Arguments HttpRejected {A} status msg.

(** ** Fee model (ergoNode.ts 253-261, transactionService.ts 273-276) *)

Section FeeModel.

Variable config : Config.

(** [BigInt(boxSize * this.config.rentFeePerByte)] *)
Definition calculateRentFee (boxSize : Z) : Z :=
  BigInt (JSNumber.mul boxSize (rentFeePerByte config)).

(** [BigInt(this.config.minBoxValuePerByte * boxSize)] *)
Definition minAcceptableValue (boxSize : Z) : Z :=
  BigInt (JSNumber.mul (minBoxValuePerByte config) boxSize).

(** [boxValue >= rentFee + BigInt(this.config.minBoxValuePerByte * boxSize)] *)
Definition hasSufficientValue (boxSize boxValue : Z) : bool :=
  boxValue >=? calculateRentFee boxSize + minAcceptableValue boxSize.

End FeeModel.

(** ** [Map<number, V>]: keys in insertion order, each key once *)

Module JSMap.

Definition t (V : Type) : Type := list (Z * V).

Definition empty {V} : t V := [].

Fixpoint get {V} (k : Z) (m : t V) : option V :=
  match m with
  | [] => None
  | (k', v) :: rest => if k' =? k then Some v else get k rest
  end.

Definition has {V} (k : Z) (m : t V) : bool :=
  match get k m with Some _ => true | None => false end.

(** [set] keeps the position of a key that is present and appends a new one. *)
Fixpoint set {V} (k : Z) (v : V) (m : t V) : t V :=
  match m with
  | [] => [(k, v)]
  | (k', v') :: rest =>
      if k' =? k then (k', v) :: rest else (k', v') :: set k v rest
  end.

Definition delete {V} (k : Z) (m : t V) : t V :=
  filter (fun kv => negb (fst kv =? k)) m.

Definition keys {V} (m : t V) : list Z := map fst m.

Definition size {V} (m : t V) : Z := Z.of_nat (List.length m).

End JSMap.

(** [if (!m.has(h)) m.set(h, []); m.get(h)!.push(...boxes)] *)
Definition pushToBucket {V} (h : Z) (boxes : list V)
  (m : JSMap.t (list V)) : JSMap.t (list V) :=
  let m1 := if JSMap.has h m then m else JSMap.set h [] m in
  match JSMap.get h m1 with
  | Some old => JSMap.set h (old ++ boxes) m1
  | None => m1
  end.

(** Truthiness of an optional string: [undefined], [null] and [''] are falsy. *)
Definition truthy (s : option string) : bool :=
  match s with
  | Some x => negb (x =? "")%string
  | None => false
  end.

(** [xs.indexOf(x)] *)
Fixpoint indexOf (x : string) (xs : list string) : Z :=
  match xs with
  | [] => -1
  | y :: rest =>
      if (y =? x)%string then 0
      else let i := indexOf x rest in if i <? 0 then -1 else i + 1
  end.

(** ** Collaborators *)

Record BotMetrics := { metrics_blob : string }.

Record Collaborators (W : Type) := {
  (* axios client of ErgoNodeService *)
  http_info : W -> http_reply (option Z) * W;
      (* GET /info, the body's fullHeight *)
  http_box_range : Z -> Z -> W -> http_reply (list string) * W;
      (* GET /blockchain/box/range?offset&limit *)
  http_blockchain_box : string -> W -> http_reply BoxData * W;
      (* GET /blockchain/box/byId/:id *)
  http_utxo : string -> W -> http_reply BoxData * W;
      (* GET /utxo/byId/:id *)
  http_transaction : string -> W -> http_reply (option Z) * W;
      (* GET /transactions/:id, the body's numConfirmations *)
  estimateBoxSize : BoxData -> option Z;
      (* @fleet-sdk/serializer, None when it throws *)
  (* Database *)
  insertEligibleBox : EligibleBox -> M W unit;
  updateBoxStatus : string -> BoxStatus -> option string -> M W unit;
  insertTransaction : TransactionResult -> M W unit;
  updateTransactionStatus : string -> TxStatus -> M W unit;
  setBotState : string -> string -> M W unit;
  getBotMetrics : M W BotMetrics;
  (* timers *)
  sleep : Z -> W -> W
      (* await new Promise(resolve => setTimeout(resolve, ms)) *)
}.
Arguments http_info {W}.
Arguments http_box_range {W}.
Arguments http_blockchain_box {W}.
Arguments http_utxo {W}.
Arguments http_transaction {W}.
Arguments estimateBoxSize {W}.
Arguments insertEligibleBox {W}.
Arguments updateBoxStatus {W}.
Arguments insertTransaction {W}.
Arguments updateTransactionStatus {W}.
Arguments setBotState {W}.
Arguments getBotMetrics {W}.
Arguments sleep {W}.

(** ** ErgoNodeService (ergoNode.ts) *)

Record ScanState := {
  boxesByHeight : JSMap.t (list EligibleBox);
  totalBoxesFound : Z
}.

Record ScanResult := {
  sr_boxesByHeight : JSMap.t (list EligibleBox);
  sr_nextOffset : Z
}.

(** How the [for] loop over one page ends: at the end of the page, or by
    the [return] taken when the target count is reached. *)
Inductive page_exit :=
| PageDone (st : ScanState)
| PageReturn (res : ScanResult).

Record Validation := { valid : list string; invalid : list string }.

Section ErgoNodeService.

Context {W : Type}.
Variable node : Collaborators W.
Variable config : Config.

Definition getCurrentHeight : M W Z := fun w =>
  match http_info node w with
  | (HttpOk _ fullHeight, w') =>
      (Ok (match fullHeight with Some h => h | None => 0 end), w')
  | (HttpRejected _ msg, w') =>
      (Throw (FailedToGetCurrentHeight (ExternalError msg)), w')
  end.

Definition getBoxById (id : string) : M W (option BoxData) := fun w =>
  match http_utxo node id w with
  | (HttpOk _ data, w') => (Ok (Some data), w')
  | (HttpRejected st msg, w') =>
      match st with
      | Some 404 => (Ok None, w')
      | _ => (Throw (FailedToGetBox id (ExternalError msg)), w')
      end
  end.

Definition calculateBoxSize (box : BoxData) : Z :=
  match estimateBoxSize node box with
  | Some fleetSize => fleetSize
  | None => 49
  end.

Definition batchSize : Z := 1000.

(** Body of [for (const boxId of boxIds)] (ergoNode.ts 218-307); [boxIds]
    is the whole page, [rest] what is left of it. *)
Fixpoint scanPage (currentHeight minAge targetBoxCount offset : Z)
  (boxIds rest : list string) (st : ScanState) (w : W) : page_exit * W :=
  match rest with
  | [] => (PageDone st, w)
  | boxId :: rest' =>
      let continue := scanPage currentHeight minAge targetBoxCount offset
                        boxIds rest' in
      match http_blockchain_box node boxId w with
      | (HttpRejected _ _, w') => continue st w'
      | (HttpOk _ box, w') =>
          if truthy (bd_spentTransactionId box) then continue st w'
          else
            let eligibleAtHeight := bd_creationHeight box + minAge in
            let blocksUntilEligible := eligibleAtHeight - currentHeight in
            if blocksUntilEligible >? 1000 then continue st w'
            else
              let boxSize := calculateBoxSize box in
              let rentFee := calculateRentFee config boxSize in
              let boxValue := BigInt (bd_value box) in
              if hasSufficientValue config boxSize boxValue then
                let eligibleBox :=
                  {| boxId := bd_boxId box;
                     creationHeight := bd_creationHeight box;
                     currentHeight := currentHeight;
                     boxSize := boxSize;
                     value := boxValue;
                     rentFee := rentFee;
                     status := if blocksUntilEligible <=? 0
                               then pending else queued;
                     ergoTree := bd_ergoTree box;
                     assets := match bd_assets box with
                               | Some l => l
                               | None => []
                               end;
                     additionalRegisters :=
                       match bd_additionalRegisters box with
                       | Some r => r
                       | None => []
                       end |} in
                let height := bd_creationHeight box in
                let st' :=
                  {| boxesByHeight :=
                       pushToBucket height [eligibleBox] (boxesByHeight st);
                     totalBoxesFound := totalBoxesFound st + 1 |} in
                if totalBoxesFound st' >=? targetBoxCount then
                  (PageReturn
                     {| sr_boxesByHeight := boxesByHeight st';
                        sr_nextOffset :=
                          offset - (batchSize - indexOf boxId boxIds) |},
                   w')
                else continue st' w'
              else continue st w'
      end
  end.

(** [while (totalBoxesFound < targetBoxCount)] (ergoNode.ts 197-318). The
    loop has no bound of its own; [None] is a run that outlasts [fuel]. *)
Fixpoint scanLoop (fuel : nat) (currentHeight minAge targetBoxCount : Z)
  (offset nextOffset : Z) (st : ScanState) (w : W)
  : option (ScanResult * W) :=
  match fuel with
  | O => None
  | S fuel' =>
      if totalBoxesFound st <? targetBoxCount then
        match http_box_range node offset batchSize w with
        | (HttpOk _ data, w') =>
            let boxIds := rev data in
            if Z.of_nat (List.length boxIds) =? 0 then
              Some ({| sr_boxesByHeight := boxesByHeight st;
                       sr_nextOffset := nextOffset |}, w')
            else
              match scanPage currentHeight minAge targetBoxCount offset
                      boxIds boxIds st w' with
              | (PageReturn res, w'') => Some (res, w'')
              | (PageDone st', w'') =>
                  scanLoop fuel' currentHeight minAge targetBoxCount
                    (offset - batchSize) (offset - batchSize) st' w''
              end
        | (HttpRejected _ _, w') =>
            scanLoop fuel' currentHeight minAge targetBoxCount
              (offset - batchSize) (offset - batchSize) st w'
        end
      else
        Some ({| sr_boxesByHeight := boxesByHeight st;
                 sr_nextOffset := nextOffset |}, w)
  end.

(** The outer [try] of the source wraps only the loop above, whose two
    inner handlers catch every rejection, so its rethrow is never taken. *)
Definition scanForEligibleBoxes (fuel : nat)
  (currentHeight minAge startOffset targetBoxCount : Z) (w : W)
  : option (ScanResult * W) :=
  let offset := if startOffset =? 0 then 44160000 else startOffset in
  scanLoop fuel currentHeight minAge targetBoxCount offset startOffset
    {| boxesByHeight := JSMap.empty; totalBoxesFound := 0 |} w.

Definition validateBoxes (boxIds : list string) : M W Validation :=
  ret {| valid := boxIds; invalid := [] |}.

Definition isTransactionConfirmed (txId : string) : M W bool := fun w =>
  match http_transaction node txId w with
  | (HttpOk st numConfirmations, w') =>
      (Ok ((st =? 200) &&
           match numConfirmations with Some n => n >? 0 | None => false end),
       w')
  | (HttpRejected st msg, w') =>
      match st with
      | Some 404 => (Ok false, w')
      | _ => (Throw (FailedToCheckTransaction txId (ExternalError msg)), w')
      end
  end.

(** The balance is a constant of the source; nothing is fetched. *)
Definition getWalletBalance : M W Z := ret (BigInt 1000000000).

End ErgoNodeService.

(** ** TransactionService (transactionService.ts) *)

Inductive ErgoAddress :=
| fromBase58 (address : string)
| fromErgoTree (tree : string).

(** [new ErgoUnsignedInput(nodeBoxData)] with its context extension. *)
Record ErgoUnsignedInput := {
  in_box : BoxData;
  in_extension : list (Z * string)
}.

(** [new OutputBuilder(value, recipient).addTokens(..).setAdditionalRegisters(..)] *)
Record OutputBuilder := {
  out_value : Z;
  out_recipient : ErgoAddress;
  out_tokens : list Asset;
  out_registers : list (string * string)
}.

(** What is handed to [TransactionBuilder]: [from], [to], [sendChangeTo]
    and [payFee]; [build().toEIP12Object()] serialises it. *)
Record UnsignedTx := {
  tx_creationHeight : Z;
  tx_from : list ErgoUnsignedInput;
  tx_to : list OutputBuilder;
  tx_sendChangeTo : ErgoAddress;
  tx_payFee : Z
}.

Record BuildResult := {
  unsignedTx : UnsignedTx;
  inputBoxes : list ErgoUnsignedInput;
  totalRentCollected : Z
}.

(** The wasm signer and the broadcast, as [fromUnsigned] calls them. *)
Record Signer (W : Type) := {
  unsignedFromJson : UnsignedTx -> outcome UnsignedTx;
      (* ergo.UnsignedTransaction.from_json *)
  boxesFromJson : list ErgoUnsignedInput -> outcome (list ErgoUnsignedInput);
      (* ergo.ErgoBoxes.from_boxes_json *)
  signTx : UnsignedTx -> list ErgoUnsignedInput -> M W string;
      (* state context, wallet and sign_transaction; the signed JSON *)
  sendTx : string -> M W string;
      (* POST /transactions, the response body *)
  parseSigned : string -> outcome string
      (* jsonBigInt.parse(signedTx.to_json()) *)
}.
Arguments unsignedFromJson {W}.
Arguments boxesFromJson {W}.
Arguments signTx {W}.
Arguments sendTx {W}.
Arguments parseSigned {W}.

Definition hexDigit (d : Z) : string :=
  String.substring (Z.to_nat d) 1 "0123456789abcdef".

Fixpoint toHex (fuel : nat) (n : Z) : string :=
  match fuel with
  | O => hexDigit n
  | S fuel' =>
      if n <? 16 then hexDigit n
      else (toHex fuel' (n / 16) ++ hexDigit (n mod 16))%string
  end.

(** [i.toString(16).padStart(2, '0')] *)
Definition outputIndexHex (i : Z) : string :=
  let s := toHex (Z.to_nat (Z.log2 i)) i in
  if (String.length s <? 2)%nat then ("0" ++ s)%string else s.

(** [xs.reduce((sum, x) => sum + f x, 0n)] *)
Definition sumBy {A} (f : A -> Z) (xs : list A) : Z :=
  fold_left (fun sum x => sum + f x) xs 0.

Record ValidationResult := { v_valid : bool; v_errors : list string }.

Section TransactionService.

Context {W : Type}.
Variable signer : Signer W.
Variable config : Config.
Variable walletAddress : string.
(** The fee constant exported by @fleet-sdk/core. *)
Variable RECOMMENDED_MIN_FEE_VALUE : Z.

Definition getWalletAddress : string := walletAddress.

(** [for (let i = 0; i < boxes.length; i += batchSize)
       batches.push(boxes.slice(i, i + batchSize))];
    [remaining] bounds the loop for a [batchSize] below 1, which
    [validateConfig] refuses. *)
Fixpoint sliceBatches {A} (remaining : nat) (size : nat) (boxes : list A)
  : list (list A) :=
  match remaining, boxes with
  | O, _ => []
  | _, [] => []
  | S r, _ => firstn size boxes :: sliceBatches r size (skipn size boxes)
  end.

Definition createTransactionBatches (boxes : list EligibleBox)
  : list (list EligibleBox) :=
  sliceBatches (List.length boxes) (Z.to_nat (maxBoxesPerTx config)) boxes.

(** The loop creating the inputs (transactionService.ts 59-82). *)
Fixpoint createFleetInputs (ergoNode : option (string -> M W (option BoxData)))
  (i : Z) (boxes : list EligibleBox) : M W (list ErgoUnsignedInput) :=
  match boxes with
  | [] => ret []
  | box :: rest =>
      fleetInput <-
        try_catch
          (nodeBoxData <-
             match ergoNode with
             | Some node => node (boxId box)
             | None => throw UndefinedErgoNode
             end ;;
           match nodeBoxData with
           | None => throw (BoxNotFoundOrSpent (boxId box))
           | Some data =>
               ret {| in_box := data;
                      in_extension :=
                        [(127, ("03" ++ outputIndexHex i)%string)] |}
           end)
          (fun e => throw (FailedToCreateInput (boxId box) e)) ;;
      fleetInputs <- createFleetInputs ergoNode (i + 1) rest ;;
      ret (fleetInput :: fleetInputs)
  end.

(** The output recreating a box: same script, tokens and registers, the
    value less the rent. *)
Definition recreatedOutput (box : EligibleBox) : OutputBuilder :=
  let newValue := value box - rentFee box in
  {| out_value := newValue;
     out_recipient := fromErgoTree (ergoTree box);
     out_tokens := assets box;
     out_registers := additionalRegisters box |}.

Definition buildStorageRentTransaction (boxes : list EligibleBox)
  (changeAddress : string) (currentHeight : Z)
  (ergoNode : option (string -> M W (option BoxData))) : M W BuildResult :=
  let totalRentCollected :=
    fold_left (fun total box => total + rentFee box) boxes 0 in
  fleetInputs <- createFleetInputs ergoNode 0 boxes ;;
  let changeAddr := fromBase58 changeAddress in
  let outputs := map recreatedOutput boxes in
  let totalInputValue := sumBy value boxes in
  let rentAfterFee := totalRentCollected - BigInt RECOMMENDED_MIN_FEE_VALUE in
  let totalOutputValue :=
    sumBy (fun box => value box - rentFee box) boxes + rentAfterFee in
  let transactionFee := BigInt RECOMMENDED_MIN_FEE_VALUE in
  let availableForFee := totalInputValue - totalOutputValue in
  if availableForFee <? transactionFee then
    throw (InsufficientFeeAvailable availableForFee transactionFee)
  else if rentAfterFee <=? 0 then
    throw (NotEnoughRent totalRentCollected transactionFee)
  else
    let rentCollectionOutput :=
      {| out_value := rentAfterFee;
         out_recipient := changeAddr;
         out_tokens := [];
         out_registers := [] |} in
    ret {| unsignedTx :=
             {| tx_creationHeight := currentHeight;
                tx_from := fleetInputs;
                tx_to := outputs ++ [rentCollectionOutput];
                tx_sendChangeTo := changeAddr;
                tx_payFee := RECOMMENDED_MIN_FEE_VALUE |};
           inputBoxes := fleetInputs;
           totalRentCollected := totalRentCollected |}.

(** A pure step that may throw, inside an effectful block. *)
Definition pure_step {A} (o : outcome A) : M W A := fun w => (o, w).

Definition fromUnsigned (unsignedTxJson : UnsignedTx)
  : M W (option string * option string) :=
  try_catch
    (unsignedTx <- pure_step (unsignedFromJson signer unsignedTxJson) ;;
     inputBoxes <- pure_step (boxesFromJson signer (tx_from unsignedTxJson)) ;;
     signedTx <- signTx signer unsignedTx inputBoxes ;;
     txId <- sendTx signer signedTx ;;
     signedJson <- pure_step (parseSigned signer signedTx) ;;
     ret (Some txId, Some signedJson))
    (fun _ => ret (None, None)).

Definition validateTransaction (boxes : list EligibleBox)
  (unsignedTx : option UnsignedTx) : ValidationResult :=
  match unsignedTx with
  | None => {| v_valid := false; v_errors := ["Empty unsigned transaction"%string] |}
  | Some _ =>
      if Z.of_nat (List.length boxes) =? 0 then
        {| v_valid := false; v_errors := ["No boxes to process"%string] |}
      else {| v_valid := true; v_errors := [] |}
  end.

End TransactionService.

(** ** StorageRentBot (storageRentBot.ts) *)

Record ProcessingResult := {
  processedBoxes : Z;
  successfulTransactions : Z;
  failedTransactions : Z;
  pr_totalRentCollected : Z;
  totalFeesPaid : Z;
  errors : list error
}.

Definition emptyResult : ProcessingResult :=
  {| processedBoxes := 0;
     successfulTransactions := 0;
     failedTransactions := 0;
     pr_totalRentCollected := 0;
     totalFeesPaid := 0;
     errors := [] |}.

(** The fields of the bot that a cycle reads and writes. *)
Record BotState := {
  lastQueueScanHeight : Z;
  queuedBoxesByHeight : JSMap.t (list EligibleBox);
  lastSearchOffset : Z
}.

Definition initialBotState : BotState :=
  {| lastQueueScanHeight := 0;
     queuedBoxesByHeight := JSMap.empty;
     lastSearchOffset := 0 |}.

(** Merge of a scan into the queue (storageRentBot.ts 179-184). *)
Definition mergeScan (scanned queue : JSMap.t (list EligibleBox))
  : JSMap.t (list EligibleBox) :=
  fold_left (fun q hb => pushToBucket (fst hb) (snd hb) q) scanned queue.

(** Promotion (storageRentBot.ts 196-220): the boxes of every height that
    is now eligible, and the queue without those heights. *)
Definition promote (currentHeight minAge : Z)
  (queue : JSMap.t (list EligibleBox))
  : list EligibleBox * JSMap.t (list EligibleBox) :=
  let '(nowEligible, heightsToRemove) :=
    fold_left
      (fun acc hb =>
         let '(nowEligible, heightsToRemove) := acc in
         let height := fst hb in
         let boxes := snd hb in
         let eligibleAtHeight := height + minAge in
         let isEligible := currentHeight >? eligibleAtHeight in
         if isEligible
         then (nowEligible ++ boxes, heightsToRemove ++ [height])
         else (nowEligible, heightsToRemove))
      queue ([], []) in
  (nowEligible,
   fold_left (fun q height => JSMap.delete height q) heightsToRemove queue).

Section StorageRentBot.

Context {W : Type}.
Variable node : Collaborators W.
Variable signer : Signer W.
Variable config : Config.
Variable walletAddress : string.
Variable RECOMMENDED_MIN_FEE_VALUE : Z.

Definition delay (ms : Z) : M W unit := fun w => (Ok tt, sleep node ms w).

(** [monitorTransactionConfirmation]: [left] attempts remain, out of
    [maxAttempts = 20]; the [try] holds the wait, the poll and the write
    of [confirmed]. The boolean is the [return] out of the loop. *)
Fixpoint monitorAttempts (left : nat) (txId : string) : M W unit :=
  match left with
  | O => updateTransactionStatus node txId tx_failed
  | S left' =>
      returned <-
        try_catch
          (delay 30000 ;;;
           isConfirmed <- isTransactionConfirmed node txId ;;
           if isConfirmed : bool then
             updateTransactionStatus node txId tx_confirmed ;;;
             ret true
           else ret false)
          (fun _ => ret false) ;;
      if returned : bool then ret tt else monitorAttempts left' txId
  end.

Definition maxAttempts : nat := 20.

Definition monitorTransactionConfirmation (txId : string) : M W unit :=
  monitorAttempts maxAttempts txId.

Definition updateWalletBalance : M W unit :=
  try_catch
    (balance <- getWalletBalance ;;
     setBotState node "wallet_balance" "1000000000")
    (fun _ => ret tt).

Definition updateMetrics : M W unit :=
  try_catch
    (metrics <- getBotMetrics node ;;
     setBotState node "last_metrics_update" "new Date().toISOString()")
    (fun _ => ret tt).

(** [processBatch]. The confirmation monitor it starts runs detached from
    the cycle, [monitorTransactionConfirmation] above is its model. *)
Definition processBatch (boxes : list EligibleBox)
  (batchIndex totalBatches : Z) : M W ProcessingResult :=
  try_catch
    (currentHeight <- getCurrentHeight node ;;
     let changeAddress := getWalletAddress walletAddress in
     built <- buildStorageRentTransaction RECOMMENDED_MIN_FEE_VALUE
                boxes changeAddress currentHeight
                (Some (getBoxById node)) ;;
     let validation := validateTransaction boxes (Some (unsignedTx built)) in
     if negb (v_valid validation) then
       throw (TransactionValidationFailed (v_errors validation))
     else
       let transactionFee := BigInt (transactionFee config) in
       let done :=
         {| processedBoxes := Z.of_nat (List.length boxes);
            successfulTransactions := 1;
            failedTransactions := 0;
            pr_totalRentCollected := totalRentCollected built;
            totalFeesPaid := transactionFee;
            errors := [] |} in
       if dryRun config then ret done
       else
         signed <- fromUnsigned signer (unsignedTx built) ;;
         if truthy (fst signed) then
           let txId := match fst signed with Some t => t | None => ""%string end in
           insertTransaction node
             {| tr_txId := txId;
                tr_boxIds := map boxId boxes;
                tr_totalRentCollected := totalRentCollected built;
                tr_transactionFee := transactionFee;
                tr_status := tx_pending |} ;;;
           for_each boxes
             (fun box => updateBoxStatus node (boxId box) claimed (Some txId)) ;;;
           ret done
         else throw FailedToSignAndSubmit)
    (fun e =>
       ret {| processedBoxes := 0;
              successfulTransactions := 0;
              failedTransactions := 1;
              pr_totalRentCollected := 0;
              totalFeesPaid := 0;
              errors := [BatchFailed batchIndex e] |}).

(** [array.includes(x)] *)
Definition includes (x : string) (xs : list string) : bool :=
  existsb (fun y => (y =? x)%string) xs.

(** [for (let i = 0; i < batches.length; i++)] (storageRentBot.ts 406-444);
    [i] is the index of the head of [batches] and [total] is
    [batches.length]. *)
Fixpoint processBatches (batches : list (list EligibleBox)) (i total : Z)
  (result : ProcessingResult) : M W ProcessingResult :=
  match batches with
  | [] => ret result
  | batch :: rest =>
      if Z.of_nat (List.length batch) =? 0 then
        processBatches rest (i + 1) total result
      else
        result' <-
          try_catch
            (batchResult <- processBatch batch (i + 1) total ;;
             let result' :=
               {| processedBoxes :=
                    processedBoxes result + processedBoxes batchResult;
                  successfulTransactions :=
                    successfulTransactions result
                    + successfulTransactions batchResult;
                  failedTransactions :=
                    failedTransactions result + failedTransactions batchResult;
                  pr_totalRentCollected :=
                    pr_totalRentCollected result
                    + pr_totalRentCollected batchResult;
                  totalFeesPaid :=
                    totalFeesPaid result + totalFeesPaid batchResult;
                  errors := errors result ++ errors batchResult |} in
             (if i <? total - 1 then delay 5000 else ret tt) ;;;
             ret result')
            (fun e =>
               let result' :=
                 {| processedBoxes := processedBoxes result;
                    successfulTransactions := successfulTransactions result;
                    failedTransactions := failedTransactions result + 1;
                    pr_totalRentCollected := pr_totalRentCollected result;
                    totalFeesPaid := totalFeesPaid result;
                    errors := errors result ++ [BatchFailed (i + 1) e] |} in
               for_each batch
                 (fun box => updateBoxStatus node (boxId box) box_error None) ;;;
               ret result') ;;
        processBatches rest (i + 1) total result'
  end.

Definition processEligibleBoxes (eligibleBoxes : list EligibleBox)
  : M W ProcessingResult :=
  let result := emptyResult in
  if Z.of_nat (List.length eligibleBoxes) =? 0 then ret result
  else
    try_catch
      (for_each eligibleBoxes
         (fun box =>
            try_catch (insertEligibleBox node box) (fun _ => ret tt)) ;;;
       let boxIds := map boxId eligibleBoxes in
       validation <- validateBoxes boxIds ;;
       for_each (invalid validation)
         (fun invalidBoxId =>
            updateBoxStatus node invalidBoxId box_error None) ;;;
       let validBoxes :=
         filter (fun box => includes (boxId box) (valid validation))
           eligibleBoxes in
       if Z.of_nat (List.length validBoxes) =? 0 then ret result
       else
         let batches := createTransactionBatches config validBoxes in
         processBatches batches 0 (Z.of_nat (List.length batches)) result)
      (fun e => throw e).

(** One cycle. [None] is a cycle whose scan outlasts [fuel]. The outer
    [catch] logs and rethrows. *)
Definition runScanAndProcess (fuel : nat) (bot : BotState) (w : W)
  : option (outcome ProcessingResult * BotState * W) :=
  match getCurrentHeight node w with
  | (Throw e, w1) => Some (Throw e, bot, w1)
  | (Ok currentHeight, w1) =>
      let shouldScanQueue :=
        currentHeight - lastQueueScanHeight bot >=? 50 in
      let scanned :=
        if shouldScanQueue then
          match scanForEligibleBoxes node config fuel currentHeight
                  (minStorageRentAgeBlocks config)
                  (lastSearchOffset bot) 50 w1 with
          | None => None
          | Some (res, w2) =>
              Some ({| lastQueueScanHeight := currentHeight;
                       queuedBoxesByHeight :=
                         mergeScan (sr_boxesByHeight res)
                           (queuedBoxesByHeight bot);
                       lastSearchOffset := sr_nextOffset res |}, w2)
          end
        else Some (bot, w1) in
      match scanned with
      | None => None
      | Some (bot1, w2) =>
          let minAge := minStorageRentAgeBlocks config in
          let '(nowEligible, queue') :=
            promote currentHeight minAge (queuedBoxesByHeight bot1) in
          let bot2 :=
            {| lastQueueScanHeight := lastQueueScanHeight bot1;
               queuedBoxesByHeight := queue';
               lastSearchOffset := lastSearchOffset bot1 |} in
          if Z.of_nat (List.length nowEligible) =? 0 then
            Some (Ok emptyResult, bot2, w2)
          else
            let '(_, w3) := updateWalletBalance w2 in
            match processEligibleBoxes nowEligible w3 with
            | (Throw e, w4) => Some (Throw e, bot2, w4)
            | (Ok processingResult, w4) =>
                let '(_, w5) := updateMetrics w4 in
                Some (Ok processingResult, bot2, w5)
            end
      end
  end.

End StorageRentBot.

(** ** Scripted collaborators for concrete runs

    The world is the number of collaborator calls made so far, so that a
    reply may depend on when it is asked for. *)

Module Script.

Definition World : Type := nat.

Definition tick {A} (reply : nat -> A) : World -> A * World :=
  fun t => (reply t, S t).

Definition node
  (info : nat -> http_reply (option Z))
  (range : Z -> Z -> http_reply (list string))
  (chainBox utxo : string -> http_reply BoxData)
  (transaction : nat -> http_reply (option Z))
  (db : nat -> outcome unit) : Collaborators World :=
  {| http_info := tick info;
     http_box_range := fun offset limit => tick (fun _ => range offset limit);
     http_blockchain_box := fun id => tick (fun _ => chainBox id);
     http_utxo := fun id => tick (fun _ => utxo id);
     http_transaction := fun _ => tick transaction;
     estimateBoxSize := fun _ => Some 105;
     insertEligibleBox := fun _ => tick db;
     updateBoxStatus := fun _ _ _ => tick db;
     insertTransaction := fun _ => tick db;
     updateTransactionStatus := fun _ _ => tick db;
     setBotState := fun _ _ => tick db;
     getBotMetrics := tick (fun _ => Ok {| metrics_blob := "" |});
     sleep := fun _ t => t |}.

Definition signer : Signer World :=
  {| unsignedFromJson := fun tx => Ok tx;
     boxesFromJson := fun boxes => Ok boxes;
     signTx := fun _ _ => tick (fun _ => Ok "signed"%string);
     sendTx := fun _ => tick (fun _ => Ok "txid"%string);
     parseSigned := fun s => Ok s |}.

Definition config (feePerByte : Z) : Config :=
  {| maxBoxesPerTx := 50;
     rentFeePerByte := feePerByte;
     minBoxValuePerByte := 360;
     minStorageRentAgeBlocks := 500;
     transactionFee := 1000000;
     dryRun := false |}.

(** The same configuration with another minimum age. *)
Definition configAged (feePerByte minAge : Z) : Config :=
  {| maxBoxesPerTx := 50;
     rentFeePerByte := feePerByte;
     minBoxValuePerByte := 360;
     minStorageRentAgeBlocks := minAge;
     transactionFee := 1000000;
     dryRun := false |}.

(** The configuration of a dry run. *)
Definition dryConfig : Config :=
  {| maxBoxesPerTx := 50;
     rentFeePerByte := 1250000;
     minBoxValuePerByte := 360;
     minStorageRentAgeBlocks := 500;
     transactionFee := 1000000;
     dryRun := true |}.

(** A signer whose broadcast is refused. *)
Definition refusedSigner : Signer World :=
  {| unsignedFromJson := fun tx => Ok tx;
     boxesFromJson := fun boxes => Ok boxes;
     signTx := fun _ _ => tick (fun _ => Ok "signed"%string);
     sendTx := fun _ => tick (fun _ => Throw (ExternalError "400"));
     parseSigned := fun s => Ok s |}.

(** An eligible box with the given id, height, value and rent. *)
Definition box (id : string) (height v rent : Z) : EligibleBox :=
  {| boxId := id;
     creationHeight := height;
     currentHeight := height;
     boxSize := 105;
     value := v;
     rentFee := rent;
     status := queued;
     ergoTree := "0008cd";
     assets := [];
     additionalRegisters := [] |}.

(** An unspent box on the node. *)
Definition unspent (id : string) (height v : Z) : BoxData :=
  {| bd_boxId := id;
     bd_value := v;
     bd_ergoTree := "0008cd";
     bd_creationHeight := height;
     bd_assets := None;
     bd_additionalRegisters := None;
     bd_spentTransactionId := None |}.

Definition spent (id : string) (height v : Z) : BoxData :=
  {| bd_boxId := id;
     bd_value := v;
     bd_ergoTree := "0008cd";
     bd_creationHeight := height;
     bd_assets := None;
     bd_additionalRegisters := None;
     bd_spentTransactionId := Some "5e1f"%string |}.

Definition rejected {A} (status : option Z) : http_reply A :=
  HttpRejected status "request failed".

(** A node that is up, knows no box and has an empty index. *)
Definition quiet (height : Z) : Collaborators World :=
  node (fun _ => HttpOk 200 (Some height))
       (fun _ _ => HttpOk 200 [])
       (fun _ => rejected (Some 404))
       (fun _ => rejected (Some 404))
       (fun _ => rejected (Some 404))
       (fun _ => Ok tt).

(** A node that is up and holds every box asked for as an unspent box of
    value [v] created at [height]. *)
Definition holding (now height v : Z) : Collaborators World :=
  node (fun _ => HttpOk 200 (Some now))
       (fun _ _ => HttpOk 200 [])
       (fun id => HttpOk 200 (unspent id height v))
       (fun id => HttpOk 200 (unspent id height v))
       (fun _ => rejected (Some 404))
       (fun _ => Ok tt).

(** The box id at a global index of the node's box index. *)
Definition idOf (index : Z) : string :=
  NilZero.string_of_uint (N.to_uint (Z.to_N index)).

(** The ids at the indices [offset, offset + limit). *)
Definition indexRange (offset limit : Z) : list string :=
  map (fun i => idOf (offset + Z.of_nat i)) (seq 0 (Z.to_nat limit)).

(** A chain whose fifty boxes at the indices 44,160,400 to 44,160,449 are
    unspent and every other box is spent; all were created at height 1000
    with a value of 500,000,000. The height is 1400 at the first call and
    1450 afterwards; a page is the slice of the index asked for. *)
Definition chainBox (id : string) : http_reply BoxData :=
  if existsb (String.eqb id) (indexRange 44160400 50)
  then HttpOk 200 (unspent id 1000 500000000)
  else HttpOk 200 (spent id 1000 500000000).

Definition chain : Collaborators World :=
  node (fun t => HttpOk 200 (Some (if (t <? 1)%nat then 1400 else 1450)))
       (fun offset limit =>
          if offset <? 0 then rejected None
          else HttpOk 200 (indexRange offset limit))
       chainBox
       chainBox
       (fun _ => rejected (Some 404))
       (fun _ => Ok tt).

(** A node whose page at offset 5000 cannot be fetched, whose page at
    offset 4000 lists three boxes, and whose other pages are empty; the box
    4001 cannot be fetched, the boxes 4000 and 4002 are unspent. *)
Definition flaky : Collaborators World :=
  node (fun _ => HttpOk 200 (Some 1400))
       (fun offset limit =>
          if offset =? 5000 then rejected (Some 500)
          else if offset =? 4000 then HttpOk 200 (indexRange 4000 3)
          else HttpOk 200 [])
       (fun id => if (id =? "4001")%string then rejected None
                  else HttpOk 200 (unspent id 1000 500000000))
       (fun id => HttpOk 200 (unspent id 1000 500000000))
       (fun _ => rejected (Some 404))
       (fun _ => Ok tt).

(** A node that cannot be reached. *)
Definition down : Collaborators World :=
  node (fun _ => rejected None)
       (fun _ _ => rejected None)
       (fun _ => rejected None)
       (fun _ => rejected None)
       (fun _ => rejected None)
       (fun _ => Ok tt).

(** A ledger for the confirmation monitor: the world is the number of
    polls made and the statuses written, latest first. Every poll reports
    the transaction confirmed when [confirmed] holds, not found otherwise;
    the write of a status fails while fewer than [dbUpAfter] polls were
    made. *)
Definition ledger (confirmed : bool) (dbUpAfter : nat)
  : Collaborators (nat * list TxStatus) :=
  {| http_info := fun w => (HttpOk 200 (Some 1400), w);
     http_box_range := fun _ _ w => (HttpOk 200 [], w);
     http_blockchain_box := fun _ w => (rejected (Some 404), w);
     http_utxo := fun _ w => (rejected (Some 404), w);
     http_transaction :=
       fun _ w => (if confirmed then HttpOk 200 (Some 1)
                   else rejected (Some 404),
                   (S (fst w), snd w));
     estimateBoxSize := fun _ => Some 105;
     insertEligibleBox := fun _ w => (Ok tt, w);
     updateBoxStatus := fun _ _ _ w => (Ok tt, w);
     insertTransaction := fun _ w => (Ok tt, w);
     updateTransactionStatus :=
       fun _ st w =>
         if (fst w <? dbUpAfter)%nat
         then (Throw (ExternalError "SQLITE_BUSY"), w)
         else (Ok tt, (fst w, st :: snd w));
     setBotState := fun _ _ w => (Ok tt, w);
     getBotMetrics := fun w => (Ok {| metrics_blob := "" |}, w);
     sleep := fun _ w => w |}.

(** The ids queued, bucket after bucket. *)
Definition queuedIds (queue : JSMap.t (list EligibleBox)) : list string :=
  map boxId (flat_map snd queue).

(** One box of 105 bytes owing 131,250,000, and the transaction built
    from it at height 1600 with a fee of 1,100,000. *)
Definition oneBox : list EligibleBox := [box "a1" 1000 500000000 131250000].

Definition oneBoxBuilt : BuildResult :=
  {| unsignedTx :=
       {| tx_creationHeight := 1600;
          tx_from := [{| in_box := unspent "a1" 1000 500000000;
                         in_extension := [(127, "0300"%string)] |}];
          tx_to := [recreatedOutput (box "a1" 1000 500000000 131250000);
                    {| out_value := 131250000 - 1100000;
                       out_recipient := fromBase58 "9fChange";
                       out_tokens := [];
                       out_registers := [] |}];
          tx_sendChangeTo := fromBase58 "9fChange";
          tx_payFee := 1100000 |};
     inputBoxes := [{| in_box := unspent "a1" 1000 500000000;
                       in_extension := [(127, "0300"%string)] |}];
     totalRentCollected := 131250000 |}.

End Script.

(** ** Vocabulary of the properties *)

Section Vocabulary.

Context {W : Type}.
Variable node : Collaborators W.
Variable signer : Signer W.
Variable config : Config.
Variable walletAddress : string.
Variable fee : Z.

(** The output crediting the rent left after the fee. *)
Definition rentOutput (boxes : list EligibleBox) (changeAddress : string)
  : OutputBuilder :=
  {| out_value := sumBy rentFee boxes - fee;
     out_recipient := fromBase58 changeAddress;
     out_tokens := [];
     out_registers := [] |}.

(** What [buildStorageRentTransaction] returns once the inputs are made. *)
Definition builtFrom (boxes : list EligibleBox) (changeAddress : string)
  (currentHeight : Z) (fleetInputs : list ErgoUnsignedInput) : BuildResult :=
  {| unsignedTx :=
       {| tx_creationHeight := currentHeight;
          tx_from := fleetInputs;
          tx_to := map recreatedOutput boxes
                     ++ [rentOutput boxes changeAddress];
          tx_sendChangeTo := fromBase58 changeAddress;
          tx_payFee := fee |};
     inputBoxes := fleetInputs;
     totalRentCollected := sumBy rentFee boxes |}.

(** The bot states that cycles started from the initial state lead to,
    whatever the world does in between. *)
Inductive reachable : BotState -> Prop :=
| reachable_initial : reachable initialBotState
| reachable_cycle (fuel : nat) (bot bot' : BotState) (w w' : W)
    (result : outcome ProcessingResult) :
    reachable bot ->
    runScanAndProcess node signer config walletAddress fee fuel bot w
      = Some (result, bot', w') ->
    reachable bot'.

End Vocabulary.

Section PromotionVocabulary.

Variables currentHeight minAge : Z.

(** The bucket of this height is due. *)
Definition due (hb : Z * list EligibleBox) : bool :=
  currentHeight >? fst hb + minAge.

End PromotionVocabulary.

Section MonitorVocabulary.

Context {W : Type}.
Variable node : Collaborators W.
Variable txId : string.

(** One turn of the loop: the wait, the poll and, when the poll reports
    the transaction confirmed, the write of [confirmed]; [true] when the
    monitor returns from this turn. *)
Definition attempt (w : W) : bool * W :=
  match isTransactionConfirmed node txId (sleep node 30000 w) with
  | (Ok true, w1) =>
      match updateTransactionStatus node txId tx_confirmed w1 with
      | (Ok _, w2) => (true, w2)
      | (Throw _, w2) => (false, w2)
      end
  | (_, w1) => (false, w1)
  end.

(** [k] turns in a row that do not return, from [w] to [w']. *)
Inductive unconfirmedAttempts : nat -> W -> W -> Prop :=
| unconfirmed_none (w : W) : unconfirmedAttempts 0 w w
| unconfirmed_more (k : nat) (w w1 w' : W) :
    attempt w = (false, w1) ->
    unconfirmedAttempts k w1 w' ->
    unconfirmedAttempts (S k) w w'.

(** The world after [k] turns in a row that do not return, if the first
    [k] turns are such. *)
Fixpoint afterUnconfirmed (k : nat) (w : W) : option W :=
  match k with
  | O => Some w
  | S k' =>
      if fst (attempt w) then None
      else afterUnconfirmed k' (snd (attempt w))
  end.

End MonitorVocabulary.

(** ** More of ErgoNodeService *)

(** [estimateVLQSize] (ergoNode.ts 167-174) *)
Definition estimateVLQSize (value : Z) : Z :=
  if value <? 128 then 1
  else if value <? 16384 then 2
  else if value <? 2097152 then 3
  else if value <? 268435456 then 4
  else 5.

(** ** More vocabulary *)

(** The value of a lower-case hexadecimal digit. *)
Definition hexDigitValue (c : ascii) : Z :=
  let n := Z.of_nat (nat_of_ascii c) in
  if (48 <=? n) && (n <=? 57) then n - 48
  else if (97 <=? n) && (n <=? 102) then n - 87
  else 0.

(** The number a string of hexadecimal digits writes. *)
Fixpoint parseHexFrom (acc : Z) (s : string) : Z :=
  match s with
  | EmptyString => acc
  | String c rest => parseHexFrom (16 * acc + hexDigitValue c) rest
  end.

Definition parseHex (s : string) : Z := parseHexFrom 0 s.

(** A lower-case hexadecimal digit. *)
Definition isHexDigit (c : ascii) : bool :=
  let n := Z.of_nat (nat_of_ascii c) in
  ((48 <=? n) && (n <=? 57)) || ((97 <=? n) && (n <=? 102)).

Fixpoint allHexDigits (s : string) : bool :=
  match s with
  | EmptyString => true
  | String c rest => isHexDigit c && allHexDigits rest
  end.

(** The digit of a value below 16, as [toString(16)] writes it. *)
Definition hexDigitOf (d : Z) : ascii :=
  if d <? 10 then ascii_of_nat (Z.to_nat (48 + d))
  else ascii_of_nat (Z.to_nat (87 + d)).

(** The claim marker of the input at index [i]. *)
Definition claimMarker (i : Z) : list (Z * string) :=
  [(127, ("03" ++ outputIndexHex i)%string)].

(** The inputs are the node's answers for the ids of the boxes, asked for
    in the order of the boxes from the world [w] on, each with the marker
    of its index, counted from [i]; [w'] is the world after the last
    answer. *)
Fixpoint inputsFetchedInOrder {W : Type}
  (ergoNode : option (string -> M W (option BoxData))) (i : Z)
  (boxes : list EligibleBox) (w : W) (inputs : list ErgoUnsignedInput)
  (w' : W) : Prop :=
  match boxes, inputs with
  | [], [] => w' = w
  | box :: rest, input :: inputs' =>
      exists node data w1,
        ergoNode = Some node
        /\ node (boxId box) w = (Ok (Some data), w1)
        /\ input = {| in_box := data; in_extension := claimMarker i |}
        /\ inputsFetchedInOrder ergoNode (i + 1) rest w1 inputs' w'
  | _, _ => False
  end.

(** The node answers a request for a box with that box. *)
Definition answersWithTheBoxAsked {W : Type}
  (ergoNode : option (string -> M W (option BoxData))) : Prop :=
  forall node id w data w1,
    ergoNode = Some node ->
    node id w = (Ok (Some data), w1) ->
    bd_boxId data = id.

(** All the boxes of a queue, bucket after bucket. *)
Definition queuedBoxes (queue : JSMap.t (list EligibleBox))
  : list EligibleBox :=
  flat_map snd queue.

(** Every box sits in the bucket of its own creation height. *)
Definition bucketsByCreationHeight (queue : JSMap.t (list EligibleBox))
  : Prop :=
  forall height boxes box,
    In (height, boxes) queue -> In box boxes -> creationHeight box = height.

(** What the scanner accepts: the box pays its rent and keeps the minimum
    value, comes of age within 1000 blocks, and is marked [pending] once of
    age, [queued] before. *)
Definition acceptedByScan (config : Config) (currentHeight minAge : Z)
  (box : EligibleBox) : Prop :=
  rentFee box = calculateRentFee config (boxSize box)
  /\ value box >= rentFee box + minAcceptableValue config (boxSize box)
  /\ creationHeight box + minAge - currentHeight <= 1000
  /\ status box = (if creationHeight box + minAge <=? currentHeight
                   then pending else queued).

(** The summary of a batch that went through, and of one that failed. *)
Definition batchDone (config : Config) (boxes : list EligibleBox)
  : ProcessingResult :=
  {| processedBoxes := Z.of_nat (List.length boxes);
     successfulTransactions := 1;
     failedTransactions := 0;
     pr_totalRentCollected := sumBy rentFee boxes;
     totalFeesPaid := BigInt (transactionFee config);
     errors := [] |}.

Definition batchFailed (batchIndex : Z) (e : error) : ProcessingResult :=
  {| processedBoxes := 0;
     successfulTransactions := 0;
     failedTransactions := 1;
     pr_totalRentCollected := 0;
     totalFeesPaid := 0;
     errors := [BatchFailed batchIndex e] |}.

(** The batches that are not empty. *)
Definition nonEmptyBatches (batches : list (list EligibleBox)) : Z :=
  Z.of_nat
    (List.length
       (filter (fun batch => negb (Z.of_nat (List.length batch) =? 0))
          batches)).

Section ScanVocabulary.

Context {W : Type}.
Variable node : Collaborators W.
Variable config : Config.
Variables currentHeight minAge targetBoxCount : Z.

(** What holds of the boxes found so far, at every point of a scan. *)
Definition scanInvariant (st : ScanState) : Prop :=
  NoDup (JSMap.keys (boxesByHeight st))
  /\ bucketsByCreationHeight (boxesByHeight st)
  /\ Forall (acceptedByScan config currentHeight minAge)
       (queuedBoxes (boxesByHeight st))
  /\ totalBoxesFound st
     = Z.of_nat (List.length (queuedBoxes (boxesByHeight st))).

Definition resultInvariant (res : ScanResult) : Prop :=
  NoDup (JSMap.keys (sr_boxesByHeight res))
  /\ bucketsByCreationHeight (sr_boxesByHeight res)
  /\ Forall (acceptedByScan config currentHeight minAge)
       (queuedBoxes (sr_boxesByHeight res))
  /\ Z.of_nat (List.length (queuedBoxes (sr_boxesByHeight res)))
     <= Z.max 0 targetBoxCount.

(** The node honours the page size it is asked for. *)
Definition pagesWithinLimit : Prop :=
  forall (offset : Z) (w w' : W) (code : Z) (data : list string),
    http_box_range node offset batchSize w = (HttpOk code data, w') ->
    Z.of_nat (List.length data) <= batchSize.

End ScanVocabulary.

(** * Properties *)

(** ** Fee model *)

Lemma round53_safe (z : Z) : Z.abs z <= 2 ^ 53 -> JSNumber.round53 z = z.
Proof.
  intros H. unfold JSNumber.round53.
  destruct (Z.abs z <? 2 ^ 53) eqn:E; [reflexivity|].
  apply Z.ltb_ge in E.
  assert (Ha : Z.abs z = 2 ^ 53) by lia.
  rewrite Ha.
  replace (Z.log2 (2 ^ 53) - 52) with 1 by (rewrite Z.log2_pow2; lia).
  change ((2 ^ 53) mod 2 ^ 1) with 0.
  change (2 ^ (1 - 1)) with 1.
  change ((2 ^ 53) / 2 ^ 1) with (2 ^ 52).
  change (0 <? 1) with true. cbv iota.
  change (2 ^ 52 * 2 ^ 1) with (2 ^ 53).
  rewrite <- Ha. rewrite Z.mul_comm. apply Z.abs_sgn.
Qed.

Lemma mul_safe (a b : Z) :
  Z.abs (a * b) <= 2 ^ 53 -> JSNumber.mul a b = a * b.
Proof. apply round53_safe. Qed.

(** C7, as stated, fails: the rent fee is the [number] product
    [boxSize * rentFeePerByte] turned into a [bigint], and for a box of 105
    bytes and a fee per byte of [2^53 - 1] that product is rounded to a
    double before the conversion, so the fee is not the integer product. *)
Lemma rentFee_rounded_counterexample :
  calculateRentFee (Script.config 9007199254740991) 105
    = 945755921747804032
  /\ 105 * 9007199254740991 = 945755921747804055
  /\ calculateRentFee (Script.config 9007199254740991) 105
       <> 105 * rentFeePerByte (Script.config 9007199254740991).
Proof. repeat split; vm_compute; congruence. Qed.

(** C7, amended: whenever the two products are at most [2^53] in magnitude,
    the rent fee is [encodedSize * feePerByte], the minimum acceptable value
    is [encodedSize * minValuePerByte], both without rounding, and a box is
    value-eligible exactly when its value is at least their sum; a box of
    105 bytes at 1,250,000 per byte owes 131,250,000, must keep 37,800 at
    360 per byte, and is eligible with a value of 500,000,000. *)
Theorem fee_model_exact_in_safe_range :
  forall (config : Config) (encodedSize boxValue : Z),
    Z.abs (encodedSize * rentFeePerByte config) <= 2 ^ 53 ->
    Z.abs (minBoxValuePerByte config * encodedSize) <= 2 ^ 53 ->
    calculateRentFee config encodedSize
      = encodedSize * rentFeePerByte config
    /\ minAcceptableValue config encodedSize
         = encodedSize * minBoxValuePerByte config
    /\ (hasSufficientValue config encodedSize boxValue = true
        <-> boxValue >= encodedSize * rentFeePerByte config
                        + encodedSize * minBoxValuePerByte config).
Proof.
  intros config encodedSize boxValue Hfee Hmin.
  unfold hasSufficientValue, calculateRentFee, minAcceptableValue, BigInt.
  rewrite !mul_safe by assumption.
  rewrite Z.geb_le. repeat split; lia.
Qed.

Lemma fee_model_scenario_B :
  calculateRentFee (Script.config 1250000) 105 = 131250000
  /\ minAcceptableValue (Script.config 1250000) 105 = 37800
  /\ (hasSufficientValue (Script.config 1250000) 105 500000000 = true
      <-> 500000000 >= 105 * 1250000 + 105 * 360).
Proof.
  apply (fee_model_exact_in_safe_range (Script.config 1250000) 105 500000000);
    vm_compute; congruence.
Defined.

(** ** Batch builder *)

Lemma fold_add_acc {A} (f : A -> Z) (xs : list A) (a : Z) :
  fold_left (fun sum x => sum + f x) xs a = a + sumBy f xs.
Proof.
  unfold sumBy.
  assert (G : forall a b,
             fold_left (fun sum x => sum + f x) xs (a + b)
             = a + fold_left (fun sum x => sum + f x) xs b).
  { induction xs as [|x xs IH]; intros a' b; simpl.
    - reflexivity.
    - rewrite <- Z.add_assoc. apply IH. }
  rewrite <- G. f_equal. lia.
Qed.

Lemma sumBy_cons {A} (f : A -> Z) (x : A) (xs : list A) :
  sumBy f (x :: xs) = f x + sumBy f xs.
Proof. unfold sumBy at 1. simpl. rewrite fold_add_acc. lia. Qed.



Lemma sumBy_sub {A} (f g : A -> Z) (xs : list A) :
  sumBy (fun x => f x - g x) xs = sumBy f xs - sumBy g xs.
Proof.
  induction xs as [|x xs IH].
  - reflexivity.
  - rewrite !sumBy_cons, IH. lia.
Qed.

Section BatchBuilder.

Context {W : Type}.
Variable fee : Z.

(** The difference of the two running sums is the fee, whatever the boxes:
    the first guard of the source never fires. *)
Lemma availableForFee_is_fee (boxes : list EligibleBox) :
  sumBy value boxes
    - (sumBy (fun box => value box - rentFee box) boxes
       + (sumBy rentFee boxes - fee)) = fee.
Proof. rewrite sumBy_sub. lia. Qed.

Lemma build_cases (boxes : list EligibleBox) (changeAddress : string)
  (currentHeight : Z) (ergoNode : option (string -> M W (option BoxData)))
  (w : W) :
  buildStorageRentTransaction fee boxes changeAddress currentHeight ergoNode w
  = match createFleetInputs ergoNode 0 boxes w with
    | (Throw e, w') => (Throw e, w')
    | (Ok fleetInputs, w') =>
        if sumBy rentFee boxes <=? fee
        then (Throw (NotEnoughRent (sumBy rentFee boxes) fee), w')
        else (Ok (builtFrom fee boxes changeAddress currentHeight fleetInputs),
               w')
    end.
Proof.
  unfold buildStorageRentTransaction, bind, BigInt.
  change (fold_left (fun total box => total + rentFee box) boxes 0)
    with (sumBy rentFee boxes).
  destruct (createFleetInputs ergoNode 0 boxes w) as [[ins|e] w'];
    [|reflexivity].
  rewrite availableForFee_is_fee, Z.ltb_irrefl.
  replace (sumBy rentFee boxes - fee <=? 0)
    with (sumBy rentFee boxes <=? fee)
    by (destruct (Z.leb_spec (sumBy rentFee boxes) fee);
        destruct (Z.leb_spec (sumBy rentFee boxes - fee) 0); lia).
  destruct (sumBy rentFee boxes <=? fee); reflexivity.
Qed.


(** The input loop raises only the error it wraps rejections in. *)
Lemma createFleetInputs_throws
  (ergoNode : option (string -> M W (option BoxData)))
  (boxes : list EligibleBox) :
  forall (i : Z) (w w' : W) (e : error),
    createFleetInputs ergoNode i boxes w = (Throw e, w') ->
    forall rent f, e <> NotEnoughRent rent f.
Proof.
  induction boxes as [|box rest IH]; intros i w w' e H rent f;
    simpl in H; [discriminate|].
  unfold bind, try_catch in H.
  destruct (match ergoNode with
            | Some node => node (boxId box)
            | None => throw UndefinedErgoNode
            end w) as [[[data|]|e0] w1]; simpl in H;
    try (inversion H; subst; discriminate).
  destruct (createFleetInputs ergoNode (i + 1) rest w1)
    as [[ins'|e1] w2] eqn:E1; simpl in H; [discriminate|].
  inversion H; subst. eapply IH. eassumption.
Qed.

End BatchBuilder.



(** C2, as stated, fails: with a rent of 400,000 against a fee of 1,000,000
    the build of a box that the node no longer holds does not fail with the
    not-enough-rent error, but earlier, while its input is created. *)
Lemma rent_check_after_inputs_counterexample :
  sumBy rentFee [Script.box "a1" 1000 500000000 400000] <= 1000000
  /\ fst (buildStorageRentTransaction 1000000
            [Script.box "a1" 1000 500000000 400000] "9fChange" 1600
            (Some (getBoxById (Script.quiet 1600))) O)
     = Throw (FailedToCreateInput "a1" (BoxNotFoundOrSpent "a1"))
  /\ fst (buildStorageRentTransaction 1000000
            [Script.box "a1" 1000 500000000 400000] "9fChange" 1600
            (Some (getBoxById (Script.quiet 1600))) O)
     <> Throw (NotEnoughRent 400000 1000000).
Proof. repeat split; vm_compute; congruence. Qed.

(** C2, amended: a successful build credits exactly
    [totalRentCollected - networkFee] to the change address: its outputs
    are the recreated outputs, one per box, followed by one output of that
    value, which is positive, to the change address; the build
    fails with the not-enough-rent error if and only if every input was
    created from the node and [totalRentCollected <= networkFee]; and
    whenever [totalRentCollected <= networkFee] the build fails. Two boxes
    owing 100,000,000 and 50,000,000 with a fee of 1,000,000 credit
    149,000,000; two boxes owing 400,000 each fail for lack of rent. *)
Theorem rent_funds_fee :
  (forall (W : Type) (fee : Z) (boxes : list EligibleBox)
          (changeAddress : string) (currentHeight : Z)
          (ergoNode : option (string -> M W (option BoxData))) (w : W),
     let total := sumBy rentFee boxes in
     let run := buildStorageRentTransaction fee boxes changeAddress
                  currentHeight ergoNode w in
     (forall built w', run = (Ok built, w') ->
        totalRentCollected built = total
        /\ tx_to (unsignedTx built)
           = map recreatedOutput boxes
               ++ [{| out_value := total - fee;
                      out_recipient := fromBase58 changeAddress;
                      out_tokens := [];
                      out_registers := [] |}]
        /\ nth_error (tx_to (unsignedTx built)) (List.length boxes)
           = Some {| out_value := total - fee;
                     out_recipient := fromBase58 changeAddress;
                     out_tokens := [];
                     out_registers := [] |}
        /\ List.length (tx_to (unsignedTx built))
           = S (List.length boxes)
        /\ tx_payFee (unsignedTx built) = fee
        /\ total - fee > 0)
     /\ (fst run = Throw (NotEnoughRent total fee)
         <-> is_ok (fst (createFleetInputs ergoNode 0 boxes w)) = true
             /\ total <= fee)
     /\ (total <= fee -> is_ok (fst run) = false))
  /\ (exists built,
        buildStorageRentTransaction 1000000
          [Script.box "a1" 1000 500000000 100000000;
           Script.box "b2" 1000 500000000 50000000] "9fChange" 1600
          (Some (getBoxById (Script.holding 1600 1000 500000000))) O
        = (Ok built, 2%nat)
        /\ tx_to (unsignedTx built)
           = [recreatedOutput (Script.box "a1" 1000 500000000 100000000);
              recreatedOutput (Script.box "b2" 1000 500000000 50000000);
              {| out_value := 149000000;
                 out_recipient := fromBase58 "9fChange";
                 out_tokens := [];
                 out_registers := [] |}])
  /\ buildStorageRentTransaction 1000000
       [Script.box "a1" 1000 500000000 400000;
        Script.box "b2" 1000 500000000 400000] "9fChange" 1600
       (Some (getBoxById (Script.holding 1600 1000 500000000))) O
     = (Throw (NotEnoughRent 800000 1000000), 2%nat).
Proof.
  split; [|split].
  - intros W fee boxes changeAddress currentHeight ergoNode w total run.
    subst run. rewrite build_cases.
    fold total.
    destruct (createFleetInputs ergoNode 0 boxes w) as [[ins|e] w1] eqn:E;
      simpl.
    + destruct (Z.leb_spec total fee) as [Hle|Hgt]; simpl.
      * split; [intros built w' H; discriminate|].
        split; [|reflexivity].
        split; [intros _; split; [reflexivity|exact Hle]|reflexivity].
      * split.
        { intros built w' H. inversion H; subst; clear H.
          cbn [unsignedTx tx_to tx_payFee totalRentCollected builtFrom].
          split; [reflexivity|]. split; [reflexivity|]. split.
          - rewrite nth_error_app2; rewrite length_map; [|apply le_n].
            now rewrite Nat.sub_diag.
          - split; [|split; [reflexivity|fold total; lia]].
            rewrite length_app, length_map. simpl. lia. }
        split; [|intros; lia].
        split; [discriminate|intros [_ H]; lia].
    + split; [intros built w' H; discriminate|].
      split; [|reflexivity].
      split.
      * intros H. inversion H; subst e. exfalso.
        exact (createFleetInputs_throws ergoNode boxes 0 w w1 _ E total fee
                 eq_refl).
      * intros [H _]. discriminate.
  - eexists. split; [vm_compute; reflexivity|]. vm_compute. reflexivity.
  - vm_compute. reflexivity.
Qed.

(** ** Eligibility queue *)

Section QueueFacts.

Context {V : Type}.

Lemma get_set_same (k : Z) (v : V) (m : JSMap.t V) :
  JSMap.get k (JSMap.set k v m) = Some v.
Proof.
  induction m as [|[k' v'] rest IH]; simpl.
  - now rewrite Z.eqb_refl.
  - destruct (k' =? k) eqn:E; simpl; rewrite E; [reflexivity|exact IH].
Qed.


Lemma has_in_keys (k : Z) (m : JSMap.t V) :
  JSMap.has k m = true <-> In k (JSMap.keys m).
Proof.
  unfold JSMap.has. induction m as [|[k' v'] rest IH]; simpl.
  - split; [discriminate|tauto].
  - destruct (Z.eqb_spec k' k) as [->|Hk].
    + split; auto.
    + rewrite IH. split; [auto|intros [H|H]; [congruence|exact H]].
Qed.

Lemma keys_set (k : Z) (v : V) (m : JSMap.t V) :
  JSMap.keys (JSMap.set k v m)
  = if JSMap.has k m then JSMap.keys m else JSMap.keys m ++ [k].
Proof.
  unfold JSMap.has. induction m as [|[k' v'] rest IH]; simpl.
  - reflexivity.
  - destruct (k' =? k) eqn:E; simpl; [reflexivity|].
    rewrite IH. destruct (JSMap.get k rest); reflexivity.
Qed.

Lemma keys_set_NoDup (k : Z) (v : V) (m : JSMap.t V) :
  NoDup (JSMap.keys m) -> NoDup (JSMap.keys (JSMap.set k v m)).
Proof.
  intros Hnd. rewrite keys_set.
  destruct (JSMap.has k m) eqn:E; [exact Hnd|].
  apply NoDup_app; [exact Hnd|repeat constructor; simpl; tauto|].
  intros x Hx [<-|[]]. apply has_in_keys in Hx. congruence.
Qed.

Lemma keys_delete_NoDup (k : Z) (m : JSMap.t V) :
  NoDup (JSMap.keys m) -> NoDup (JSMap.keys (JSMap.delete k m)).
Proof.
  unfold JSMap.keys, JSMap.delete.
  induction m as [|[k' v'] rest IH]; simpl; intros Hnd; [constructor|].
  inversion Hnd as [|? ? Hnotin Hrest]; subst.
  destruct (negb (k' =? k)); simpl; [|auto].
  constructor; [|auto].
  intros Hin. apply Hnotin.
  apply in_map_iff in Hin. destruct Hin as [kv [Hk Hkv]].
  apply filter_In in Hkv. apply in_map_iff. exists kv. tauto.
Qed.

End QueueFacts.

Section Promotion.

Variables currentHeight minAge : Z.

Lemma promote_loop (queue : JSMap.t (list EligibleBox)) :
  forall nowEligible heightsToRemove,
    fold_left
      (fun acc hb =>
         let '(nowEligible, heightsToRemove) := acc in
         let height := fst hb in
         let boxes := snd hb in
         let eligibleAtHeight := height + minAge in
         let isEligible := currentHeight >? eligibleAtHeight in
         if isEligible
         then (nowEligible ++ boxes, heightsToRemove ++ [height])
         else (nowEligible, heightsToRemove))
      queue (nowEligible, heightsToRemove)
    = (nowEligible ++ flat_map snd (filter (due currentHeight minAge) queue),
       heightsToRemove ++ map fst (filter (due currentHeight minAge) queue)).
Proof.
  induction queue as [|[h bs] rest IH]; intros acc1 acc2; simpl.
  - now rewrite !app_nil_r.
  - assert (Hd : due currentHeight minAge (h, bs)
                 = (currentHeight >? h + minAge))
      by reflexivity.
    rewrite Hd.
    destruct (currentHeight >? h + minAge); rewrite IH; simpl.
    + now rewrite <- !app_assoc.
    + reflexivity.
Qed.

Lemma delete_all (heights : list Z) :
  forall queue : JSMap.t (list EligibleBox),
    fold_left (fun q height => JSMap.delete height q) heights queue
    = filter (fun hb => negb (existsb (fun h => fst hb =? h) heights)) queue.
Proof.
  induction heights as [|h hs IH]; intros queue; simpl.
  - induction queue as [|hb rest IHq]; simpl; [reflexivity|].
    now rewrite <- IHq.
  - rewrite IH. unfold JSMap.delete.
    induction queue as [|hb rest IHq]; simpl; [reflexivity|].
    destruct (fst hb =? h); simpl.
    + exact IHq.
    + destruct (existsb (fun h0 => fst hb =? h0) hs); simpl;
        [exact IHq|now rewrite IHq].
Qed.

Lemma due_heights (queue : JSMap.t (list EligibleBox))
  (hb : Z * list EligibleBox) :
  In hb queue ->
  existsb (fun h => fst hb =? h)
    (map fst (filter (due currentHeight minAge) queue))
  = due currentHeight minAge hb.
Proof.
  intros Hin. destruct (due currentHeight minAge hb) eqn:E.
  - apply existsb_exists. exists (fst hb). split; [|apply Z.eqb_refl].
    apply in_map. apply filter_In. tauto.
  - destruct (existsb _ _) eqn:E'; [|reflexivity].
    apply existsb_exists in E'. destruct E' as [h [Hh Heq]].
    apply Z.eqb_eq in Heq. subst h.
    apply in_map_iff in Hh. destruct Hh as [hb' [Hfst Hin']].
    apply filter_In in Hin'. destruct Hin' as [_ Hdue].
    unfold due in *. rewrite Hfst in Hdue. congruence.
Qed.

Lemma promote_filter (queue : JSMap.t (list EligibleBox)) :
  promote currentHeight minAge queue
  = (flat_map snd (filter (due currentHeight minAge) queue),
     filter (fun hb => negb (due currentHeight minAge hb)) queue).
Proof.
  unfold promote. rewrite promote_loop. simpl. f_equal.
  rewrite delete_all. apply filter_ext_in.
  intros hb Hin. now rewrite due_heights.
Qed.

End Promotion.

(** C3: promotion moves a bucket to the claimable output exactly when
    [bucketHeight + minAgeBlocks < currentHeight]: the output is the box
    lists of the due buckets, whole and in queue order, the queue keeps
    the other buckets untouched and no due height; a box created at 1000
    with a minimum age of 500 stays queued at 1500 and is promoted at
    1501. *)
Theorem promotion_is_strict :
  (forall (queue : JSMap.t (list EligibleBox)) (currentHeight minAge : Z),
     let nowEligible := fst (promote currentHeight minAge queue) in
     let queue' := snd (promote currentHeight minAge queue) in
     nowEligible
       = flat_map snd (filter (fun hb => fst hb + minAge <? currentHeight) queue)
     /\ queue'
        = filter (fun hb => negb (fst hb + minAge <? currentHeight)) queue
     /\ (forall height boxes, In (height, boxes) queue ->
           (height + minAge < currentHeight ->
              incl boxes nowEligible /\ JSMap.has height queue' = false)
           /\ (~ height + minAge < currentHeight ->
                 In (height, boxes) queue'
                 /\ JSMap.get height queue' = JSMap.get height queue))
     /\ (forall box, In box nowEligible ->
           exists height boxes,
             In (height, boxes) queue /\ In box boxes
             /\ height + minAge < currentHeight))
  /\ promote 1500 500 [(1000, [Script.box "a1" 1000 500000000 131250000])]
     = ([], [(1000, [Script.box "a1" 1000 500000000 131250000])])
  /\ promote 1501 500 [(1000, [Script.box "a1" 1000 500000000 131250000])]
     = ([Script.box "a1" 1000 500000000 131250000], []).
Proof.
  split; [|split; reflexivity].
  intros queue currentHeight minAge nowEligible queue'.
  subst nowEligible queue'. rewrite promote_filter. simpl.
  assert (Hdue : forall hb, due currentHeight minAge hb
                            = (fst hb + minAge <? currentHeight)).
  { intros hb. unfold due. now rewrite Z.gtb_ltb. }
  rewrite (filter_ext _ _ Hdue).
  rewrite (filter_ext (fun hb => negb (due currentHeight minAge hb))
             (fun hb => negb (fst hb + minAge <? currentHeight)))
    by (intros hb; now rewrite Hdue).
  split; [reflexivity|]. split; [reflexivity|]. split.
  - intros height boxes Hin. split.
    + intros Hlt. split.
      * intros box Hbox. apply in_flat_map. exists (height, boxes).
        split; [|exact Hbox]. apply filter_In. split; [exact Hin|].
        simpl. now apply Z.ltb_lt.
      * destruct (JSMap.has height _) eqn:E; [|reflexivity].
        apply has_in_keys in E. apply in_map_iff in E.
        destruct E as [[h bs] [Hh Hf]]. simpl in Hh. subst h.
        apply filter_In in Hf. destruct Hf as [_ Hf]. simpl in Hf.
        apply Z.ltb_lt in Hlt. rewrite Hlt in Hf. discriminate.
    + intros Hge. apply Z.ltb_nlt in Hge. split.
      * apply filter_In. split; [exact Hin|]. simpl. now rewrite Hge.
      * clear Hin. induction queue as [|[h bs] rest IH]; simpl;
          [reflexivity|].
        destruct (Z.eqb_spec h height) as [->|Hne].
        { rewrite Hge. simpl. now rewrite Z.eqb_refl. }
        destruct (negb (h + minAge <? currentHeight)); simpl.
        { destruct (Z.eqb_spec h height); [congruence|exact IH]. }
        exact IH.
  - intros box Hbox. apply in_flat_map in Hbox.
    destruct Hbox as [[h bs] [Hf Hb]]. apply filter_In in Hf.
    destruct Hf as [Hin Hlt]. simpl in *. apply Z.ltb_lt in Hlt.
    now exists h, bs.
Qed.

(** ** Merging a scan into the queue *)



Lemma pushToBucket_NoDup {V} (h : Z) (boxes : list V)
  (m : JSMap.t (list V)) :
  NoDup (JSMap.keys m) -> NoDup (JSMap.keys (pushToBucket h boxes m)).
Proof.
  intros Hnd. unfold pushToBucket.
  assert (H1 : NoDup (JSMap.keys
                        (if JSMap.has h m then m else JSMap.set h [] m)))
    by (destruct (JSMap.has h m); [exact Hnd|now apply keys_set_NoDup]).
  destruct (JSMap.get h _); [now apply keys_set_NoDup|exact H1].
Qed.



Section Reachability.

Context {W : Type}.
Variable node : Collaborators W.
Variable signer : Signer W.
Variable config : Config.
Variable walletAddress : string.
Variable fee : Z.



End Reachability.



(** ** Scanner failures *)

(** C6, as stated, fails in its second half: the page at offset 5000 cannot
    be fetched, yet the scan goes on to the page at 4000, queues the boxes
    4002 and 4000 (skipping 4001, whose fetch fails), and returns the
    cursor 3000 instead of 5000. *)
Lemma page_failure_moves_cursor_counterexample :
  fst (http_box_range Script.flaky 5000 batchSize O)
    = Script.rejected (Some 500)
  /\ match scanForEligibleBoxes Script.flaky (Script.config 1250000) 10
             1400 500 5000 50 O with
     | Some (res, _) =>
         Script.queuedIds (sr_boxesByHeight res) = ["4002"; "4000"]%string
         /\ sr_nextOffset res = 3000
         /\ sr_nextOffset res <> 5000
     | None => False
     end.
Proof. vm_compute. repeat split; congruence. Qed.

(** C6, amended: a fetch error for one box id is skipped, the scan goes on
    with the ids left in the page and has queued nothing for it; a failure
    to fetch a page is skipped too: the scan goes on with the page below,
    and the cursor to return has moved down by one page. *)
Theorem scan_skips_failures :
  forall (W : Type) (node : Collaborators W) (config : Config)
         (currentHeight minAge targetBoxCount offset : Z),
    (forall (boxIds rest : list string) (boxId : string) (st : ScanState)
            (w w' : W) (status : option Z) (msg : string),
       http_blockchain_box node boxId w = (HttpRejected status msg, w') ->
       scanPage node config currentHeight minAge targetBoxCount offset
         boxIds (boxId :: rest) st w
       = scanPage node config currentHeight minAge targetBoxCount offset
           boxIds rest st w')
    /\ (forall (fuel : nat) (nextOffset : Z) (st : ScanState) (w w' : W)
               (status : option Z) (msg : string),
          totalBoxesFound st < targetBoxCount ->
          http_box_range node offset batchSize w
            = (HttpRejected status msg, w') ->
          scanLoop node config (S fuel) currentHeight minAge targetBoxCount
            offset nextOffset st w
          = scanLoop node config fuel currentHeight minAge targetBoxCount
              (offset - batchSize) (offset - batchSize) st w')
    /\ (forall (fuel : nat) (nextOffset : Z) (st : ScanState) (w w' w'' : W)
               (status : option Z) (msg : string) (code : Z),
          totalBoxesFound st < targetBoxCount ->
          http_box_range node offset batchSize w
            = (HttpRejected status msg, w') ->
          http_box_range node (offset - batchSize) batchSize w'
            = (HttpOk code [], w'') ->
          scanLoop node config (S (S fuel)) currentHeight minAge
            targetBoxCount offset nextOffset st w
          = Some ({| sr_boxesByHeight := boxesByHeight st;
                     sr_nextOffset := offset - batchSize |}, w'')).
Proof.
  intros W node config currentHeight minAge targetBoxCount offset.
  split; [|split].
  - intros boxIds rest boxId st w w' status msg Hbox.
    simpl. now rewrite Hbox.
  - intros fuel nextOffset st w w' status msg Hlt Hpage.
    simpl. apply Z.ltb_lt in Hlt. now rewrite Hlt, Hpage.
  - intros fuel nextOffset st w w' w'' status msg code Hlt Hpage Hnext.
    apply Z.ltb_lt in Hlt.
    cbn [scanLoop]. rewrite !Hlt, Hpage. cbv iota beta.
    rewrite Hnext. reflexivity.
Qed.

Lemma scan_skips_failures_witness :
  scanPage Script.flaky (Script.config 1250000) 1400 500 50 4000
    ["4002"; "4001"; "4000"]%string ["4001"; "4000"]%string
    {| boxesByHeight := JSMap.empty; totalBoxesFound := 0 |} 2%nat
  = scanPage Script.flaky (Script.config 1250000) 1400 500 50 4000
      ["4002"; "4001"; "4000"]%string ["4000"]%string
      {| boxesByHeight := JSMap.empty; totalBoxesFound := 0 |} 3%nat
  /\ scanLoop Script.flaky (Script.config 1250000) 10 1400 500 50
       5000 5000 {| boxesByHeight := JSMap.empty; totalBoxesFound := 0 |} O
     = scanLoop Script.flaky (Script.config 1250000) 9 1400 500 50
         (5000 - batchSize) (5000 - batchSize)
         {| boxesByHeight := JSMap.empty; totalBoxesFound := 0 |} 1%nat.
Proof.
  split.
  - apply (proj1 (scan_skips_failures Script.World Script.flaky
                    (Script.config 1250000) 1400 500 50 4000))
      with (status := None) (msg := "request failed"%string).
    reflexivity.
  - apply (proj1 (proj2 (scan_skips_failures Script.World Script.flaky
                           (Script.config 1250000) 1400 500 50 5000)))
      with (status := Some 500) (msg := "request failed"%string).
    + reflexivity.
    + reflexivity.
Defined.

(** ** Confirmation monitor *)

Section Monitor.

Context {W : Type}.
Variable node : Collaborators W.
Variable txId : string.

Lemma monitorAttempts_step (left : nat) (w : W) :
  monitorAttempts node (S left) txId w
  = if fst (attempt node txId w) then (Ok tt, snd (attempt node txId w))
    else monitorAttempts node left txId (snd (attempt node txId w)).
Proof.
  unfold attempt. simpl. unfold bind, try_catch, delay, ret.
  destruct (isTransactionConfirmed node txId (sleep node 30000 w))
    as [[[|]|e] w1]; simpl; try reflexivity.
  destruct (updateTransactionStatus node txId tx_confirmed w1)
    as [[u|e] w2]; simpl; reflexivity.
Qed.

Lemma monitorAttempts_skip (k : nat) (w w' : W) :
  unconfirmedAttempts node txId k w w' ->
  forall left,
    monitorAttempts node (k + left) txId w
    = monitorAttempts node left txId w'.
Proof.
  induction 1 as [w|k w w1 w' Hatt Hrest IH]; intros left.
  - reflexivity.
  - change (S k + left)%nat with (S (k + left)).
    rewrite monitorAttempts_step, Hatt. simpl. apply IH.
Qed.

Lemma afterUnconfirmed_sound (k : nat) :
  forall w w' : W,
    afterUnconfirmed node txId k w = Some w' ->
    unconfirmedAttempts node txId k w w'.
Proof.
  induction k as [|k IH]; intros w w' H; simpl in H.
  - inversion H. constructor.
  - destruct (attempt node txId w) as [b w1] eqn:E. simpl in H.
    destruct b; [discriminate|].
    econstructor; [exact E|]. now apply IH.
Qed.

End Monitor.

(** C8, as stated, fails: the database is busy until the third poll, so the
    write of [confirmed] that follows the first poll reporting the
    transaction confirmed is lost, and the monitor polls again, three
    times in all; when the database stays busy, all twenty polls report
    the transaction confirmed and the monitor ends on the write of
    [failed]. *)
Lemma monitor_polls_past_confirmation_counterexample :
  fst (isTransactionConfirmed (Script.ledger true 3) "tx"
         (sleep (Script.ledger true 3) 30000 (O, [])))
    = Ok true
  /\ monitorTransactionConfirmation (Script.ledger true 3) "tx" (O, [])
     = (Ok tt, (3%nat, [tx_confirmed]))
  /\ monitorTransactionConfirmation (Script.ledger true 21) "tx" (O, [])
     = (Throw (ExternalError "SQLITE_BUSY"), (20%nat, [])).
Proof. vm_compute. repeat split. Qed.

(** C8, amended: the monitor makes at most twenty attempts, each a wait of
    30,000 ms followed by one poll; at the first attempt whose poll reports
    the transaction confirmed and whose write of [confirmed] succeeds, the
    status is [confirmed] and the monitor stops; an attempt whose poll
    reports not confirmed, or whose poll or write throws, is followed by
    the next one; after twenty such attempts the monitor writes [failed]. *)
Theorem monitor_bounded_polling :
  forall (W : Type) (node : Collaborators W) (txId : string) (w : W),
    (forall (k : nat) (wk w1 w' : W),
       (k < maxAttempts)%nat ->
       unconfirmedAttempts node txId k w wk ->
       isTransactionConfirmed node txId (sleep node 30000 wk) = (Ok true, w1) ->
       updateTransactionStatus node txId tx_confirmed w1 = (Ok tt, w') ->
       monitorTransactionConfirmation node txId w = (Ok tt, w'))
    /\ (forall w20 : W,
          unconfirmedAttempts node txId maxAttempts w w20 ->
          monitorTransactionConfirmation node txId w
          = updateTransactionStatus node txId tx_failed w20)
    /\ (forall wk w1 : W,
          fst (isTransactionConfirmed node txId (sleep node 30000 wk))
            <> Ok true ->
          snd (isTransactionConfirmed node txId (sleep node 30000 wk)) = w1 ->
          attempt node txId wk = (false, w1)).
Proof.
  intros W node txId w. unfold monitorTransactionConfirmation.
  split; [|split].
  - intros k wk w1 w' Hk Hquiet Hpoll Hwrite.
    replace maxAttempts with (k + S (maxAttempts - S k))%nat by lia.
    rewrite (monitorAttempts_skip node txId k w wk Hquiet).
    rewrite monitorAttempts_step. unfold attempt.
    now rewrite Hpoll, Hwrite.
  - intros w20 Hquiet.
    replace maxAttempts with (maxAttempts + 0)%nat by lia.
    now rewrite (monitorAttempts_skip node txId _ w w20 Hquiet).
  - intros wk w1 Hpoll Hw. unfold attempt.
    destruct (isTransactionConfirmed node txId (sleep node 30000 wk))
      as [[[|]|e] w2]; simpl in *; subst; congruence.
Qed.

Lemma monitor_bounded_polling_witness :
  monitorTransactionConfirmation (Script.ledger true 0) "tx" (O, [])
    = (Ok tt, (1%nat, [tx_confirmed]))
  /\ monitorTransactionConfirmation (Script.ledger false 0) "tx" (O, [])
     = (Ok tt, (20%nat, [tx_failed]))
  /\ attempt (Script.ledger false 0) "tx" (O, []) = (false, (1%nat, [])).
Proof.
  split; [|split].
  - apply (proj1 (monitor_bounded_polling _ (Script.ledger true 0) "tx"
                    (O, [])) 0%nat (O, []) (1%nat, [])).
    + unfold maxAttempts. lia.
    + constructor.
    + reflexivity.
    + reflexivity.
  - apply (proj1 (proj2 (monitor_bounded_polling _ (Script.ledger false 0)
                           "tx" (O, []))) (20%nat, [])).
    apply afterUnconfirmed_sound. vm_compute. reflexivity.
  - apply (proj2 (proj2 (monitor_bounded_polling _ (Script.ledger false 0)
                           "tx" (O, [])))).
    + vm_compute. discriminate.
    + reflexivity.
Defined.

(** ** Re-validation before batching *)

Lemma filter_all_valid (boxes : list EligibleBox) :
  filter (fun box => includes (boxId box) (map boxId boxes)) boxes = boxes.
Proof.
  assert (G : forall ids,
             (forall box, In box boxes -> In (boxId box) ids) ->
             filter (fun box => includes (boxId box) ids) boxes = boxes).
  { induction boxes as [|b rest IH]; intros ids Hin; simpl; [reflexivity|].
    assert (Hb : includes (boxId b) ids = true).
    { apply existsb_exists. exists (boxId b).
      split; [apply Hin; now left|apply String.eqb_refl]. }
    rewrite Hb. f_equal. apply IH. intros box Hbox. apply Hin. now right. }
  apply G. intros box Hbox. now apply in_map.
Qed.

(** C9, on the code: [validateBoxes] asks the node nothing and reports
    every id valid, so a box that was spent is neither marked nor dropped;
    it is put in a batch, whose build then fails on that box. *)
Theorem validateBoxes_keeps_spent_boxes :
  (forall (W : Type) (boxIds : list string) (w : W),
     validateBoxes boxIds w = (Ok {| valid := boxIds; invalid := [] |}, w))
  /\ (forall boxes : list EligibleBox,
        filter (fun box => includes (boxId box) (map boxId boxes)) boxes
        = boxes)
  /\ http_utxo (Script.quiet 1600) "a1" 2%nat
     = (Script.rejected (Some 404), 3%nat)
  /\ processEligibleBoxes (Script.quiet 1600) Script.signer
       (Script.config 1250000) "9fChange" 1100000
       [Script.box "a1" 1000 500000000 131250000] O
     = (Ok {| processedBoxes := 0;
              successfulTransactions := 0;
              failedTransactions := 1;
              pr_totalRentCollected := 0;
              totalFeesPaid := 0;
              errors := [BatchFailed 1
                           (FailedToCreateInput "a1"
                              (BoxNotFoundOrSpent "a1"))] |},
        3%nat).
Proof.
  split; [reflexivity|]. split; [apply filter_all_valid|].
  split; reflexivity.
Qed.

(** ** Sign and submit *)

(** C10: [fromUnsigned] never throws; when parsing, signing or the
    broadcast fails it returns the pair of nulls, and otherwise the
    transaction id paired with the signed transaction. *)
Theorem fromUnsigned_never_throws :
  forall (W : Type) (signer : Signer W) (unsignedTxJson : UnsignedTx) (w : W),
    (exists pair w', fromUnsigned signer unsignedTxJson w = (Ok pair, w'))
    /\ match unsignedFromJson signer unsignedTxJson,
             boxesFromJson signer (tx_from unsignedTxJson) with
       | Ok unsignedTx, Ok inputBoxes =>
           match signTx signer unsignedTx inputBoxes w with
           | (Ok signedTx, w1) =>
               match sendTx signer signedTx w1 with
               | (Ok txId, w2) =>
                   match parseSigned signer signedTx with
                   | Ok signedJson =>
                       fromUnsigned signer unsignedTxJson w
                       = (Ok (Some txId, Some signedJson), w2)
                   | Throw _ =>
                       fromUnsigned signer unsignedTxJson w
                       = (Ok (None, None), w2)
                   end
               | (Throw _, w2) =>
                   fromUnsigned signer unsignedTxJson w = (Ok (None, None), w2)
               end
           | (Throw _, w1) =>
               fromUnsigned signer unsignedTxJson w = (Ok (None, None), w1)
           end
       | _, _ => fromUnsigned signer unsignedTxJson w = (Ok (None, None), w)
       end.
Proof.
  intros W signer unsignedTxJson w.
  unfold fromUnsigned, try_catch, bind, pure_step, ret.
  destruct (unsignedFromJson signer unsignedTxJson) as [unsignedTx|e];
    [|split; [eauto|
       destruct (boxesFromJson signer (tx_from unsignedTxJson));
       reflexivity]].
  destruct (boxesFromJson signer (tx_from unsignedTxJson))
    as [inputBoxes|e]; [|split; [eauto|reflexivity]].
  destruct (signTx signer unsignedTx inputBoxes w) as [[signedTx|e] w1];
    [|split; [eauto|reflexivity]].
  destruct (sendTx signer signedTx w1) as [[txId|e] w2];
    [|split; [eauto|reflexivity]].
  destruct (parseSigned signer signedTx) as [signedJson|e];
    split; eauto.
Qed.

(** ** The cycle and its exceptions *)

Section Cycle.

Context {W : Type}.
Variable node : Collaborators W.
Variable signer : Signer W.
Variable config : Config.
Variable walletAddress : string.
Variable fee : Z.

(** A block whose handler returns a value returns a value. *)
Lemma try_catch_returns {A} (m : M W A) (f : error -> A) (w : W) :
  exists a w', try_catch m (fun e => ret (f e)) w = (Ok a, w').
Proof.
  unfold try_catch, ret. destruct (m w) as [[a|e] w']; eauto.
Qed.

Lemma processBatch_returns (boxes : list EligibleBox)
  (batchIndex totalBatches : Z) (w : W) :
  exists result w',
    processBatch node signer config walletAddress fee boxes batchIndex
      totalBatches w = (Ok result, w').
Proof. unfold processBatch. apply try_catch_returns. Qed.

Lemma processBatches_returns (batches : list (list EligibleBox)) :
  forall (i total : Z) (result : ProcessingResult) (w : W),
    exists result' w',
      processBatches node signer config walletAddress fee batches i total
        result w = (Ok result', w').
Proof.
  induction batches as [|batch rest IH]; intros i total result w; simpl.
  - unfold ret. eauto.
  - destruct (Z.of_nat (List.length batch) =? 0); [apply IH|].
    unfold bind at 1. unfold try_catch at 1. unfold bind at 1.
    destruct (processBatch_returns batch (i + 1) total w)
      as [batchResult [w1 ->]].
    unfold bind.
    destruct (i <? total - 1); unfold delay, ret; apply IH.
Qed.

Lemma saveAll_returns (boxes : list EligibleBox) :
  forall w : W,
    exists w',
      for_each boxes
        (fun box => try_catch (insertEligibleBox node box) (fun _ => ret tt))
        w = (Ok tt, w').
Proof.
  induction boxes as [|box rest IH]; intros w; simpl.
  - unfold ret. eauto.
  - unfold bind, try_catch, ret.
    destruct (insertEligibleBox node box w) as [[[]|e] w1]; apply IH.
Qed.

Lemma processEligibleBoxes_returns (eligibleBoxes : list EligibleBox) (w : W) :
  exists result w',
    processEligibleBoxes node signer config walletAddress fee eligibleBoxes w
      = (Ok result, w').
Proof.
  unfold processEligibleBoxes.
  destruct (Z.of_nat (List.length eligibleBoxes) =? 0);
    [unfold ret; eauto|].
  unfold try_catch at 1. unfold bind at 1.
  destruct (saveAll_returns eligibleBoxes w) as [w1 ->].
  unfold validateBoxes, bind, ret. simpl.
  destruct (Z.of_nat (List.length (filter _ eligibleBoxes)) =? 0);
    [eauto|].
  match goal with
  | |- context [processBatches ?n ?s ?c ?a ?f ?b ?i ?t ?r ?w0] =>
      destruct (processBatches_returns b i t r w0) as [r' [w2 ->]]
  end.
  eauto.
Qed.

End Cycle.

(** What is left of a cycle once the queue is merged: the promotion, the
    processing of the promoted boxes and the two bookkeeping writes. *)
Ltac cycle_tail node signer config walletAddress fee :=
  cbv zeta;
  match goal with
  | |- context [promote ?h ?a ?q] => destruct (promote h a q) as [? ?]
  end;
  match goal with
  | |- context [Z.of_nat (List.length ?l) =? 0] =>
      destruct (Z.of_nat (List.length l) =? 0)
  end;
  [ split; [intros ? ? ? H; inversion H; eauto | intros _; eauto]
  | match goal with
    | |- context [updateWalletBalance node ?w2] =>
        destruct (updateWalletBalance node w2) as [? ?]
    end;
    match goal with
    | |- context [processEligibleBoxes node signer config walletAddress fee
                    ?l ?w3] =>
        destruct (processEligibleBoxes_returns node signer config
                    walletAddress fee l w3) as [? [? ->]]
    end;
    match goal with
    | |- context [updateMetrics node ?w4] =>
        destruct (updateMetrics node w4) as [? ?]
    end;
    split; [intros ? ? ? H; inversion H; eauto | intros _; eauto] ].

(** C4, as stated, fails: when the node cannot be reached the cycle does
    not return a summary; the failure of the first height request is
    rethrown to the caller. *)
Lemma cycle_rethrows_counterexample :
  runScanAndProcess Script.down Script.signer (Script.config 1250000)
    "9fChange" 1100000 10 initialBotState O
  = Some (Throw (FailedToGetCurrentHeight (ExternalError "request failed")),
          initialBotState, 1%nat).
Proof. reflexivity. Qed.

(** C4, amended: a cycle throws past [runScanAndProcess] exactly when its
    first request for the chain height fails, and then rethrows that
    failure; in every other case, whatever the node, the database and the
    signer do afterwards, a cycle whose scan ends returns a result summary
    with its error list. *)
Theorem cycle_throws_only_on_height :
  forall (W : Type) (node : Collaborators W) (signer : Signer W)
         (config : Config) (walletAddress : string) (fee : Z)
         (fuel : nat) (bot : BotState) (w : W),
    match getCurrentHeight node w with
    | (Throw e, w1) =>
        runScanAndProcess node signer config walletAddress fee fuel bot w
        = Some (Throw e, bot, w1)
    | (Ok currentHeight, w1) =>
        (forall result bot' w',
           runScanAndProcess node signer config walletAddress fee fuel bot w
             = Some (result, bot', w') ->
           exists summary, result = Ok summary)
        /\ ((currentHeight - lastQueueScanHeight bot >= 50 ->
             scanForEligibleBoxes node config fuel currentHeight
               (minStorageRentAgeBlocks config) (lastSearchOffset bot) 50 w1
             <> None) ->
            exists summary bot' w',
              runScanAndProcess node signer config walletAddress fee fuel
                bot w = Some (Ok summary, bot', w'))
    end.
Proof.
  intros W node signer config walletAddress fee fuel bot w.
  unfold runScanAndProcess.
  destruct (getCurrentHeight node w) as [[currentHeight|e] w1];
    [|reflexivity].
  destruct (currentHeight - lastQueueScanHeight bot >=? 50) eqn:Edue.
  - destruct (scanForEligibleBoxes node config fuel currentHeight
                (minStorageRentAgeBlocks config) (lastSearchOffset bot) 50 w1)
      as [[res w2]|].
    + cycle_tail node signer config walletAddress fee.
    + split; [discriminate|].
      intros H. exfalso. apply H; [|reflexivity].
      apply Z.geb_le in Edue. lia.
  - cycle_tail node signer config walletAddress fee.
Qed.

Lemma cycle_throws_only_on_height_witness :
  (exists summary bot' w',
     runScanAndProcess Script.chain Script.refusedSigner
       (Script.configAged 1250000 300) "9fChange" 1100000 10
       initialBotState O
     = Some (Ok summary, bot', w'))
  /\ option_map (fun run => fst (fst run))
       (runScanAndProcess Script.chain Script.refusedSigner
          (Script.configAged 1250000 300) "9fChange" 1100000 10
          initialBotState O)
     = Some (Ok {| processedBoxes := 0;
                   successfulTransactions := 0;
                   failedTransactions := 1;
                   pr_totalRentCollected := 0;
                   totalFeesPaid := 0;
                   errors := [BatchFailed 1 FailedToSignAndSubmit] |}).
Proof.
  split.
  - apply (proj2 (cycle_throws_only_on_height Script.World Script.chain
                    Script.refusedSigner (Script.configAged 1250000 300)
                    "9fChange" 1100000 10 initialBotState O)).
    intros _. vm_compute. discriminate.
  - vm_compute. reflexivity.
Defined.

(** * Further properties of the code *)

(** ** Batches *)

Lemma sliceBatches_partition {A} (size : nat) :
  (1 <= size)%nat ->
  forall (remaining : nat) (boxes : list A),
    (List.length boxes <= remaining)%nat ->
    List.concat (sliceBatches remaining size boxes) = boxes
    /\ Forall (fun batch => (1 <= List.length batch <= size)%nat)
         (sliceBatches remaining size boxes).
Proof.
  intros Hsize. induction remaining as [|r IH]; intros boxes Hlen.
  - destruct boxes; simpl in *; [split; [reflexivity|constructor]|lia].
  - destruct boxes as [|b rest]; [split; [reflexivity|constructor]|].
    change (sliceBatches (S r) size (b :: rest))
      with (firstn size (b :: rest)
              :: sliceBatches r size (skipn size (b :: rest))).
    destruct (IH (skipn size (b :: rest))) as [Hcat Hall].
    { rewrite length_skipn. lia. }
    split.
    + simpl List.concat. rewrite Hcat. apply firstn_skipn.
    + constructor; [|exact Hall].
      rewrite length_firstn. simpl List.length in *. lia.
Qed.

(** [createTransactionBatches] cuts the boxes into consecutive batches: put
    end to end the batches are the boxes, in order, and, for a batch size of
    at least 1, no batch is empty and none holds more than
    [maxBoxesPerTx] boxes. *)
Theorem createTransactionBatches_partition :
  forall (config : Config) (boxes : list EligibleBox),
    1 <= maxBoxesPerTx config ->
    List.concat (createTransactionBatches config boxes) = boxes
    /\ Forall (fun batch =>
                 1 <= Z.of_nat (List.length batch) <= maxBoxesPerTx config)
         (createTransactionBatches config boxes).
Proof.
  intros config boxes Hmax. unfold createTransactionBatches.
  destruct (sliceBatches_partition (A := EligibleBox)
              (Z.to_nat (maxBoxesPerTx config)) ltac:(lia)
              (List.length boxes) boxes (le_n _)) as [Hcat Hall].
  split; [exact Hcat|].
  eapply Forall_impl; [|exact Hall]. simpl. intros batch Hb. lia.
Qed.

Lemma createTransactionBatches_partition_witness :
  List.concat (createTransactionBatches (Script.config 1250000)
            [Script.box "a1" 1000 500000000 131250000;
             Script.box "b2" 1000 500000000 131250000])
  = [Script.box "a1" 1000 500000000 131250000;
     Script.box "b2" 1000 500000000 131250000].
Proof.
  apply (createTransactionBatches_partition (Script.config 1250000)).
  vm_compute. discriminate.
Defined.

(** ** Inputs, markers and outputs *)

Lemma createFleetInputs_markers {W : Type}
  (ergoNode : option (string -> M W (option BoxData)))
  (boxes : list EligibleBox) :
  forall (i : Z) (w w' : W) (fleetInputs : list ErgoUnsignedInput),
    createFleetInputs ergoNode i boxes w = (Ok fleetInputs, w') ->
    map in_extension fleetInputs
    = map (fun k => claimMarker (i + Z.of_nat k))
        (seq 0 (List.length boxes)).
Proof.
  induction boxes as [|box rest IH]; intros i w w' ins H; simpl in H.
  - inversion H. reflexivity.
  - unfold bind, try_catch in H.
    destruct (match ergoNode with
              | Some node => node (boxId box)
              | None => throw UndefinedErgoNode
              end w) as [[[data|]|e] w1]; simpl in H; try discriminate.
    destruct (createFleetInputs ergoNode (i + 1) rest w1)
      as [[ins'|e] w2] eqn:E; simpl in H; try discriminate.
    inversion H; subst. simpl.
    f_equal.
    + unfold claimMarker. now rewrite Z.add_0_r.
    + rewrite (IH _ _ _ _ E). rewrite <- seq_shift, map_map.
      apply map_ext. intros k. f_equal. lia.
Qed.

Lemma createFleetInputs_fetched {W : Type}
  (ergoNode : option (string -> M W (option BoxData)))
  (boxes : list EligibleBox) :
  forall (i : Z) (w w' : W) (fleetInputs : list ErgoUnsignedInput),
    createFleetInputs ergoNode i boxes w = (Ok fleetInputs, w') ->
    inputsFetchedInOrder ergoNode i boxes w fleetInputs w'.
Proof.
  induction boxes as [|box rest IH]; intros i w w' ins H; simpl in H.
  - inversion H. reflexivity.
  - unfold bind, try_catch in H.
    destruct ergoNode as [node|] eqn:Enode;
      [|unfold throw in H; simpl in H; discriminate].
    destruct (node (boxId box) w) as [[[data|]|e] w1] eqn:Eask;
      simpl in H; try discriminate.
    destruct (createFleetInputs (Some node) (i + 1) rest w1)
      as [[ins'|e] w2] eqn:E; simpl in H; try discriminate.
    inversion H; subst. simpl.
    exists node, data, w1. repeat split; try assumption.
    apply IH. exact E.
Qed.

Lemma inputsFetchedInOrder_ids {W : Type}
  (ergoNode : option (string -> M W (option BoxData)))
  (boxes : list EligibleBox) :
  answersWithTheBoxAsked ergoNode ->
  forall (i : Z) (w w' : W) (inputs : list ErgoUnsignedInput),
    inputsFetchedInOrder ergoNode i boxes w inputs w' ->
    map (fun input => bd_boxId (in_box input)) inputs = map boxId boxes.
Proof.
  intros Hnode.
  induction boxes as [|box rest IH]; intros i w w' inputs H;
    destruct inputs as [|input inputs']; simpl in H; try contradiction.
  - reflexivity.
  - destruct H as [node [data [w1 [Hn [Hask [-> Hrest]]]]]]. simpl.
    f_equal; [exact (Hnode node _ _ _ _ Hn Hask)|].
    eapply IH. exact Hrest.
Qed.

(** What a successful [buildStorageRentTransaction] hands to the
    transaction builder and returns keeps the order of the boxes: the input
    at index [i] is the node's answer for the id of the box at index [i],
    the requests being made in the order of the boxes, and carries the
    claim marker of [i] (context variable 127, the bytes 03 and the index
    in hexadecimal); the output at index [i] recreates the box at index
    [i] with its script, tokens and registers; the inputs returned are
    those handed over. When the node answers every request with the box
    asked for, the ids of the inputs are the ids of the boxes, in order. *)
Theorem build_keeps_positions :
  forall (W : Type) (fee : Z) (boxes : list EligibleBox)
         (changeAddress : string) (currentHeight : Z)
         (ergoNode : option (string -> M W (option BoxData)))
         (w w' : W) (built : BuildResult),
    buildStorageRentTransaction fee boxes changeAddress currentHeight
      ergoNode w = (Ok built, w') ->
    inputsFetchedInOrder ergoNode 0 boxes w (tx_from (unsignedTx built)) w'
    /\ (answersWithTheBoxAsked ergoNode ->
        map (fun input => bd_boxId (in_box input))
          (tx_from (unsignedTx built))
        = map boxId boxes)
    /\ map in_extension (tx_from (unsignedTx built))
       = map (fun k => claimMarker (Z.of_nat k)) (seq 0 (List.length boxes))
    /\ firstn (List.length boxes) (tx_to (unsignedTx built))
       = map recreatedOutput boxes
    /\ (forall (k : nat) (box : EligibleBox),
          nth_error boxes k = Some box ->
          exists output,
            nth_error (tx_to (unsignedTx built)) k = Some output
            /\ out_recipient output = fromErgoTree (ergoTree box)
            /\ out_tokens output = assets box
            /\ out_registers output = additionalRegisters box
            /\ out_value output = value box - rentFee box)
    /\ inputBoxes built = tx_from (unsignedTx built).
Proof.
  intros W fee boxes changeAddress currentHeight ergoNode w w' built H.
  rewrite build_cases in H.
  destruct (createFleetInputs ergoNode 0 boxes w) as [[ins|e] w1] eqn:E;
    [|discriminate].
  destruct (sumBy rentFee boxes <=? fee); [discriminate|].
  pose proof (createFleetInputs_markers ergoNode boxes 0 w w1 ins E) as Hm.
  pose proof (createFleetInputs_fetched ergoNode boxes 0 w w1 ins E) as Hf.
  inversion H; subst; clear H. simpl.
  split; [exact Hf|].
  split; [intros Hnode; eapply inputsFetchedInOrder_ids; eassumption|].
  split; [exact Hm|].
  split.
  - rewrite <- (length_map recreatedOutput boxes).
    rewrite firstn_app, Nat.sub_diag, firstn_all. simpl.
    apply app_nil_r.
  - split; [|reflexivity].
    intros k box Hk. exists (recreatedOutput box).
    split; [|repeat split].
    rewrite nth_error_app1.
    + rewrite nth_error_map, Hk. reflexivity.
    + rewrite length_map. apply nth_error_Some. congruence.
Qed.

Lemma holding_answers_with_the_box_asked :
  answersWithTheBoxAsked
    (Some (getBoxById (Script.holding 1600 1000 500000000))).
Proof.
  intros node id w data w1 Hnode Hask.
  inversion Hnode; subst node. unfold getBoxById in Hask. simpl in Hask.
  unfold Script.tick in Hask. inversion Hask. reflexivity.
Qed.

Lemma build_keeps_positions_witness :
  inputsFetchedInOrder
    (Some (getBoxById (Script.holding 1600 1000 500000000))) 0
    Script.oneBox O (tx_from (unsignedTx Script.oneBoxBuilt)) 1%nat
  /\ map (fun input => bd_boxId (in_box input))
       (tx_from (unsignedTx Script.oneBoxBuilt))
     = map boxId Script.oneBox
  /\ map in_extension (tx_from (unsignedTx Script.oneBoxBuilt))
     = map (fun k => claimMarker (Z.of_nat k))
         (seq 0 (List.length Script.oneBox)).
Proof.
  assert (Hrun : buildStorageRentTransaction 1100000 Script.oneBox "9fChange"
                   1600
                   (Some (getBoxById (Script.holding 1600 1000 500000000))) O
                 = (Ok Script.oneBoxBuilt, 1%nat))
    by (vm_compute; reflexivity).
  pose proof (build_keeps_positions Script.World 1100000 Script.oneBox
                "9fChange" 1600
                (Some (getBoxById (Script.holding 1600 1000 500000000)))
                O 1%nat Script.oneBoxBuilt Hrun) as T.
  destruct T as (Hf & Hids & Hm & _).
  split; [exact Hf|].
  split; [exact (Hids holding_answers_with_the_box_asked)|exact Hm].
Defined.




(** With no box at all the build asks the node nothing and fails for lack
    of rent, for every fee that is not negative. *)
Theorem build_of_no_box_fails :
  forall (W : Type) (fee : Z) (changeAddress : string) (currentHeight : Z)
         (ergoNode : option (string -> M W (option BoxData))) (w : W),
    0 <= fee ->
    buildStorageRentTransaction fee [] changeAddress currentHeight ergoNode w
    = (Throw (NotEnoughRent 0 fee), w).
Proof.
  intros W fee changeAddress currentHeight ergoNode w Hfee.
  rewrite build_cases. simpl.
  change (sumBy rentFee []) with 0.
  destruct (Z.leb_spec 0 fee); [reflexivity|lia].
Qed.

Lemma build_of_no_box_fails_witness :
  buildStorageRentTransaction 1100000 [] "9fChange" 1600
    (Some (getBoxById (Script.quiet 1600))) O
  = (Throw (NotEnoughRent 0 1100000), O).
Proof.
  apply (build_of_no_box_fails Script.World 1100000 "9fChange" 1600
           (Some (getBoxById (Script.quiet 1600))) O).
  lia.
Defined.

(** ** The index written in the claim marker *)

Lemma below_256 (P : Z -> bool) :
  forallb P (map Z.of_nat (seq 0 256)) = true ->
  forall i, 0 <= i < 256 -> P i = true.
Proof.
  intros Hall i Hi.
  rewrite forallb_forall in Hall. apply Hall.
  apply in_map_iff. exists (Z.to_nat i). split; [lia|].
  apply in_seq. lia.
Qed.

(** For every index below 256 the marker holds the index as exactly two
    lower-case hexadecimal digits, the digit of [i / 16] followed by the
    digit of [i mod 16], which read back as the index. *)
Theorem outputIndexHex_two_digits :
  forall i : Z,
    0 <= i < 256 ->
    outputIndexHex i
      = String (hexDigitOf (i / 16)) (String (hexDigitOf (i mod 16)) "")
    /\ allHexDigits (outputIndexHex i) = true
    /\ String.length (outputIndexHex i) = 2%nat
    /\ parseHex (outputIndexHex i) = i.
Proof.
  intros i Hi.
  pose proof (below_256
                (fun k => String.eqb (outputIndexHex k)
                            (String (hexDigitOf (k / 16))
                               (String (hexDigitOf (k mod 16)) ""))
                          && allHexDigits (outputIndexHex k)
                          && (String.length (outputIndexHex k) =? 2)%nat
                          && (parseHex (outputIndexHex k) =? k))
                ltac:(vm_compute; reflexivity) i Hi) as H.
  cbv beta in H.
  apply andb_prop in H. destruct H as [H Hval].
  apply andb_prop in H. destruct H as [H Hlen].
  apply andb_prop in H. destruct H as [Heq Hhex].
  split; [now apply String.eqb_eq|]. split; [exact Hhex|].
  split; [now apply Nat.eqb_eq|now apply Z.eqb_eq].
Qed.

Lemma outputIndexHex_two_digits_witness :
  outputIndexHex 49 = "31"%string
  /\ allHexDigits (outputIndexHex 49) = true
  /\ String.length (outputIndexHex 49) = 2%nat
  /\ parseHex (outputIndexHex 49) = 49.
Proof. apply (outputIndexHex_two_digits 49). lia. Defined.

(** ** Size of a variable-length quantity *)

(** [estimateVLQSize] counts the groups of seven bits of a value below
    [2^35]: a value of size [n] is below [128^n], and, when [n] is more than
    1, at least [128^(n-1)]; the size is never more than 5. *)
Theorem estimateVLQSize_groups :
  forall value : Z,
    0 <= value < 2 ^ 35 ->
    1 <= estimateVLQSize value <= 5
    /\ value < 128 ^ estimateVLQSize value
    /\ (1 < estimateVLQSize value ->
        128 ^ (estimateVLQSize value - 1) <= value).
Proof.
  intros value Hv. unfold estimateVLQSize.
  destruct (Z.ltb_spec value 128); [simpl; lia|].
  destruct (Z.ltb_spec value 16384); [simpl; lia|].
  destruct (Z.ltb_spec value 2097152); [simpl; lia|].
  destruct (Z.ltb_spec value 268435456); [simpl; lia|].
  change (2 ^ 35) with 34359738368 in Hv.
  change (128 ^ 5) with 34359738368.
  change (128 ^ (5 - 1)) with 268435456. lia.
Qed.

Lemma estimateVLQSize_groups_witness :
  1 <= estimateVLQSize 300 <= 5
  /\ 300 < 128 ^ estimateVLQSize 300
  /\ (1 < estimateVLQSize 300 -> 128 ^ (estimateVLQSize 300 - 1) <= 300).
Proof. apply (estimateVLQSize_groups 300). lia. Defined.

(** ** What a scan returns *)

Lemma pushToBucket_nil {V} (h : Z) (boxes : list V) :
  pushToBucket h boxes [] = [(h, boxes)].
Proof. unfold pushToBucket. simpl. now rewrite Z.eqb_refl. Qed.

Lemma pushToBucket_cons {V} (h k : Z) (v boxes : list V)
  (rest : JSMap.t (list V)) :
  pushToBucket h boxes ((k, v) :: rest)
  = if k =? h then (k, v ++ boxes) :: rest
    else (k, v) :: pushToBucket h boxes rest.
Proof.
  unfold pushToBucket, JSMap.has. simpl.
  destruct (k =? h) eqn:E; simpl.
  - now rewrite E.
  - destruct (JSMap.get h rest) as [old|] eqn:G; simpl; rewrite E.
    + now rewrite G.
    + rewrite get_set_same. reflexivity.
Qed.

Lemma pushToBucket_length {V} (h : Z) (boxes : list V)
  (m : JSMap.t (list V)) :
  List.length (flat_map snd (pushToBucket h boxes m))
  = (List.length (flat_map snd m) + List.length boxes)%nat.
Proof.
  induction m as [|[k v] rest IH].
  - rewrite pushToBucket_nil. simpl. now rewrite app_nil_r.
  - rewrite pushToBucket_cons. destruct (k =? h); simpl.
    + rewrite !length_app. lia.
    + rewrite !length_app, IH. lia.
Qed.

Lemma pushToBucket_In {V} (h : Z) (boxes : list V)
  (m : JSMap.t (list V)) (k : Z) (v : list V) :
  In (k, v) (pushToBucket h boxes m) ->
  In (k, v) m
  \/ (k = h /\ exists old, v = old ++ boxes
                           /\ (old = [] \/ In (h, old) m)).
Proof.
  induction m as [|[k0 v0] rest IH].
  - rewrite pushToBucket_nil. intros [H|[]]. inversion H; subst.
    right. split; [reflexivity|]. exists []. split; [reflexivity|now left].
  - rewrite pushToBucket_cons.
    destruct (Z.eqb_spec k0 h) as [->|Hne]; intros [H|H].
    + inversion H; subst. right. split; [reflexivity|].
      exists v0. split; [reflexivity|right; now left].
    + left. now right.
    + left. now left.
    + destruct (IH H) as [Hin|[-> [old [-> Hold]]]].
      * left. now right.
      * right. split; [reflexivity|]. exists old.
        split; [reflexivity|]. destruct Hold; [now left|right; now right].
Qed.

Section ScanInvariant.

Context {W : Type}.
Variable node : Collaborators W.
Variable config : Config.
Variables currentHeight minAge targetBoxCount : Z.

Lemma scanInvariant_push (st : ScanState) (box : EligibleBox) :
  scanInvariant config currentHeight minAge st ->
  acceptedByScan config currentHeight minAge box ->
  scanInvariant config currentHeight minAge
    {| boxesByHeight :=
         pushToBucket (creationHeight box) [box] (boxesByHeight st);
       totalBoxesFound := totalBoxesFound st + 1 |}.
Proof.
  intros (Hnd & Hby & Hacc & Hcount) Hbox. unfold scanInvariant. simpl.
  split; [now apply pushToBucket_NoDup|]. split; [|split].
  - intros height boxes b Hin Hb.
    destruct (pushToBucket_In _ _ _ _ _ Hin)
      as [Hold|[-> [old [-> Hold]]]].
    + eapply Hby; eassumption.
    + apply in_app_or in Hb. destruct Hb as [Hb|[<-|[]]]; [|reflexivity].
      destruct Hold as [->|Hold]; [destruct Hb|].
      eapply Hby; eassumption.
  - apply Forall_forall. intros b Hb.
    unfold queuedBoxes in Hb. apply in_flat_map in Hb.
    destruct Hb as [[k v] [Hin Hb]]. simpl in Hb.
    rewrite Forall_forall in Hacc.
    destruct (pushToBucket_In _ _ _ _ _ Hin)
      as [Hold|[-> [old [-> Hold]]]].
    + apply Hacc. apply in_flat_map. exists (k, v). now split.
    + apply in_app_or in Hb. destruct Hb as [Hb|[<-|[]]]; [|exact Hbox].
      destruct Hold as [->|Hold]; [destruct Hb|].
      apply Hacc. apply in_flat_map. exists (creationHeight box, old).
      now split.
  - unfold queuedBoxes in *. rewrite pushToBucket_length, Hcount.
    simpl. lia.
Qed.

Lemma scanPage_invariant (offset : Z) (boxIds : list string) :
  forall (rest : list string) (st : ScanState) (w w' : W) (exit : page_exit),
    scanInvariant config currentHeight minAge st ->
    totalBoxesFound st < targetBoxCount ->
    scanPage node config currentHeight minAge targetBoxCount offset
      boxIds rest st w = (exit, w') ->
    match exit with
    | PageDone st' =>
        scanInvariant config currentHeight minAge st'
        /\ totalBoxesFound st' < targetBoxCount
    | PageReturn res =>
        resultInvariant config currentHeight minAge targetBoxCount res
    end.
Proof.
  induction rest as [|boxId rest IH]; intros st w w' exit Hinv Hlt H.
  - inversion H. now split.
  - simpl in H.
    destruct (http_blockchain_box node boxId w) as [[code box|s m] w1];
      [|eapply IH; eassumption].
    destruct (truthy (bd_spentTransactionId box));
      [eapply IH; eassumption|].
    destruct (Z.gtb_spec (bd_creationHeight box + minAge - currentHeight) 1000)
      as [Hfar|Hnear]; [eapply IH; eassumption|].
    destruct (hasSufficientValue config (calculateBoxSize node box)
                (BigInt (bd_value box))) eqn:Hval;
      [|eapply IH; eassumption].
    match type of H with
    | context [pushToBucket _ [?b] _] => set (eligibleBox := b) in H
    end.
    assert (Hacc : acceptedByScan config currentHeight minAge eligibleBox).
    { unfold acceptedByScan, eligibleBox. simpl.
      split; [reflexivity|]. split.
      - unfold hasSufficientValue in Hval. apply Z.geb_le in Hval. lia.
      - split; [lia|].
        destruct (Z.leb_spec (bd_creationHeight box + minAge - currentHeight)
                    0);
          destruct (Z.leb_spec (bd_creationHeight box + minAge)
                      currentHeight); (reflexivity || lia). }
    pose proof (scanInvariant_push st eligibleBox Hinv Hacc) as Hinv'.
    change (creationHeight eligibleBox) with (bd_creationHeight box) in Hinv'.
    simpl totalBoxesFound in H.
    destruct (Z.geb_spec (totalBoxesFound st + 1) targetBoxCount)
      as [Hfull|Hmore].
    + inversion H; subst. unfold resultInvariant. simpl.
      destruct Hinv' as (Hnd & Hby & Hall & Hcount). simpl in *.
      repeat split; try assumption. lia.
    + eapply IH; [exact Hinv'|simpl; lia|exact H].
Qed.

Lemma scanLoop_invariant (fuel : nat) :
  forall (offset nextOffset : Z) (st : ScanState) (w w' : W)
         (res : ScanResult),
    scanInvariant config currentHeight minAge st ->
    totalBoxesFound st <= Z.max 0 targetBoxCount ->
    scanLoop node config fuel currentHeight minAge targetBoxCount
      offset nextOffset st w = Some (res, w') ->
    resultInvariant config currentHeight minAge targetBoxCount res.
Proof.
  induction fuel as [|fuel IH];
    intros offset nextOffset st w w' res Hinv Hmax H; [discriminate|].
  simpl in H.
  assert (Hexit : resultInvariant config currentHeight minAge targetBoxCount
                    {| sr_boxesByHeight := boxesByHeight st;
                       sr_nextOffset := nextOffset |}).
  { destruct Hinv as (Hnd & Hby & Hall & Hcount).
    unfold resultInvariant. simpl. repeat split; try assumption. lia. }
  destruct (Z.ltb_spec (totalBoxesFound st) targetBoxCount) as [Hlt|Hge];
    [|inversion H; subst; exact Hexit].
  destruct (http_box_range node offset batchSize w) as [[code data|s m] w1];
    [|eapply IH; eassumption].
  destruct (Z.of_nat (List.length (rev data)) =? 0);
    [inversion H; subst; exact Hexit|].
  destruct (scanPage node config currentHeight minAge targetBoxCount offset
              (rev data) (rev data) st w1) as [[st'|res'] w2] eqn:Epage;
    pose proof (scanPage_invariant offset (rev data) (rev data) st w1 w2 _
                  Hinv Hlt Epage) as Hpage.
  - destruct Hpage as [Hinv' Hlt'].
    eapply IH; [exact Hinv'|lia|exact H].
  - inversion H; subst. exact Hpage.
Qed.

End ScanInvariant.

(** Whatever the node answers, a scan that returns holds each creation
    height in one bucket, every box in the bucket of its own creation
    height, and only boxes that passed its checks: the value covers the
    rent fee plus the minimum value for the size, the box comes of age
    within 1000 blocks, and its status is [pending] when it is of age and
    [queued] otherwise. *)
Theorem scan_result_well_formed :
  forall (W : Type) (node : Collaborators W) (config : Config) (fuel : nat)
         (currentHeight minAge startOffset targetBoxCount : Z)
         (w w' : W) (res : ScanResult),
    scanForEligibleBoxes node config fuel currentHeight minAge startOffset
      targetBoxCount w = Some (res, w') ->
    NoDup (JSMap.keys (sr_boxesByHeight res))
    /\ bucketsByCreationHeight (sr_boxesByHeight res)
    /\ Forall (acceptedByScan config currentHeight minAge)
         (queuedBoxes (sr_boxesByHeight res)).
Proof.
  intros W node config fuel currentHeight minAge startOffset targetBoxCount
    w w' res H.
  unfold scanForEligibleBoxes in H.
  eapply scanLoop_invariant in H.
  - destruct H as (Hnd & Hby & Hall & _). auto.
  - unfold scanInvariant, bucketsByCreationHeight. simpl.
    repeat split; try constructor. intros ? ? ? [].
  - simpl. lia.
Qed.

(** A scan never returns more boxes than the target count it was given,
    and none for a target that is not positive. *)
Theorem scan_result_bounded :
  forall (W : Type) (node : Collaborators W) (config : Config) (fuel : nat)
         (currentHeight minAge startOffset targetBoxCount : Z)
         (w w' : W) (res : ScanResult),
    scanForEligibleBoxes node config fuel currentHeight minAge startOffset
      targetBoxCount w = Some (res, w') ->
    Z.of_nat (List.length (queuedBoxes (sr_boxesByHeight res)))
    <= Z.max 0 targetBoxCount.
Proof.
  intros W node config fuel currentHeight minAge startOffset targetBoxCount
    w w' res H.
  unfold scanForEligibleBoxes in H.
  eapply scanLoop_invariant in H.
  - destruct H as (_ & _ & _ & Hcount). exact Hcount.
  - unfold scanInvariant, bucketsByCreationHeight. simpl.
    repeat split; try constructor. intros ? ? ? [].
  - simpl. lia.
Qed.

Lemma scan_result_well_formed_witness :
  exists res w',
    scanForEligibleBoxes Script.flaky (Script.config 1250000) 10
      1400 500 5000 50 O = Some (res, w')
    /\ NoDup (JSMap.keys (sr_boxesByHeight res))
    /\ bucketsByCreationHeight (sr_boxesByHeight res)
    /\ Forall (acceptedByScan (Script.config 1250000) 1400 500)
         (queuedBoxes (sr_boxesByHeight res)).
Proof.
  assert (H : exists res w',
             scanForEligibleBoxes Script.flaky (Script.config 1250000) 10
               1400 500 5000 50 O = Some (res, w'))
    by (vm_compute; eauto).
  destruct H as [res [w' H]]. exists res, w'. split; [exact H|].
  exact (scan_result_well_formed Script.World Script.flaky
           (Script.config 1250000) 10 1400 500 5000 50 O w' res H).
Defined.

Lemma scan_result_bounded_witness :
  exists res w',
    scanForEligibleBoxes Script.chain (Script.config 1250000) 10
      1400 500 0 50 O = Some (res, w')
    /\ Z.of_nat (List.length (queuedBoxes (sr_boxesByHeight res)))
       <= Z.max 0 50.
Proof.
  assert (H : exists res w',
             scanForEligibleBoxes Script.chain (Script.config 1250000) 10
               1400 500 0 50 O = Some (res, w'))
    by (vm_compute; eauto).
  destruct H as [res [w' H]]. exists res, w'. split; [exact H|].
  exact (scan_result_bounded Script.World Script.chain
           (Script.config 1250000) 10 1400 500 0 50 O w' res H).
Defined.

(** ** The cursor a scan returns *)

Lemma indexOf_bounds (x : string) (xs : list string) :
  In x xs -> 0 <= indexOf x xs < Z.of_nat (List.length xs).
Proof.
  induction xs as [|y rest IH]; intros Hin; [destruct Hin|].
  simpl indexOf. destruct (String.eqb_spec y x) as [->|Hne].
  - simpl List.length. lia.
  - destruct Hin as [->|Hin]; [congruence|].
    specialize (IH Hin).
    destruct (Z.ltb_spec (indexOf x rest) 0); simpl List.length; lia.
Qed.

Section Cursor.

Context {W : Type}.
Variable node : Collaborators W.
Variable config : Config.
Variables currentHeight minAge targetBoxCount : Z.

Lemma scanPage_cursor (offset : Z) (boxIds : list string) :
  forall (rest : list string) (st : ScanState) (w w' : W) (res : ScanResult),
    incl rest boxIds ->
    scanPage node config currentHeight minAge targetBoxCount offset
      boxIds rest st w = (PageReturn res, w') ->
    offset - batchSize <= sr_nextOffset res
    /\ sr_nextOffset res
       < offset - batchSize + Z.of_nat (List.length boxIds).
Proof.
  induction rest as [|boxId rest IH]; intros st w w' res Hincl H;
    [discriminate|].
  assert (Hrest : incl rest boxIds)
    by (intros x Hx; apply Hincl; now right).
  with_strategy opaque [Z.sub] (simpl in H).
  destruct (http_blockchain_box node boxId w) as [[code box|s m] w1];
    [|eapply IH; eassumption].
  destruct (truthy (bd_spentTransactionId box));
    [eapply IH; eassumption|].
  destruct (bd_creationHeight box + minAge - currentHeight >? 1000);
    [eapply IH; eassumption|].
  destruct (hasSufficientValue config (calculateBoxSize node box)
              (BigInt (bd_value box))); [|eapply IH; eassumption].
  destruct (totalBoxesFound st + 1 >=? targetBoxCount);
    [|eapply IH; eassumption].
  with_strategy opaque [Z.sub] (injection H as Hres _).
  rewrite <- Hres. unfold sr_nextOffset.
  pose proof (indexOf_bounds boxId boxIds (Hincl boxId (or_introl eq_refl))).
  unfold batchSize. lia.
Qed.

Lemma scanLoop_cursor (Hpages : pagesWithinLimit node) (first : Z) (fuel : nat) :
  forall (offset nextOffset : Z) (st : ScanState) (w w' : W)
         (res : ScanResult),
    offset <= first ->
    scanLoop node config fuel currentHeight minAge targetBoxCount
      offset nextOffset st w = Some (res, w') ->
    sr_nextOffset res = nextOffset \/ sr_nextOffset res < first.
Proof.
  induction fuel as [|fuel IH];
    intros offset nextOffset st w w' res Hoff H; [discriminate|].
  with_strategy opaque [Z.sub] (simpl in H).
  destruct (totalBoxesFound st <? targetBoxCount);
    [|injection H as <- _; now left].
  destruct (http_box_range node offset batchSize w)
    as [[code data|s m] w1] eqn:Epage.
  - pose proof (Hpages _ _ _ _ _ Epage) as Hlen.
    destruct (Z.of_nat (List.length (rev data)) =? 0);
      [injection H as <- _; now left|].
    destruct (scanPage node config currentHeight minAge targetBoxCount offset
                (rev data) (rev data) st w1) as [[st'|res'] w2] eqn:Escan.
    + right. apply IH in H; [|unfold batchSize; lia].
      destruct H as [->|Hlt]; unfold batchSize; lia.
    + with_strategy opaque [Z.sub] (injection H as <- _).
      pose proof (scanPage_cursor offset (rev data) (rev data) st w1 w2 res'
                    (incl_refl _) Escan) as Hc.
      rewrite length_rev in Hc. right. lia.
  - right. apply IH in H; [|unfold batchSize; lia].
    destruct H as [->|Hlt]; unfold batchSize; lia.
Qed.

End Cursor.

(** When the node never returns more ids than the page size asked for, the
    cursor never moves up: a scan started at a cursor other than 0 returns
    that cursor or a lower one, and a scan started at 0, which reads from
    offset 44,160,000, returns 0 or a cursor below 44,160,000. *)
Theorem scan_cursor_moves_down :
  forall (W : Type) (node : Collaborators W) (config : Config) (fuel : nat)
         (currentHeight minAge startOffset targetBoxCount : Z)
         (w w' : W) (res : ScanResult),
    pagesWithinLimit node ->
    scanForEligibleBoxes node config fuel currentHeight minAge startOffset
      targetBoxCount w = Some (res, w') ->
    (startOffset <> 0 -> sr_nextOffset res <= startOffset)
    /\ (startOffset = 0 ->
        sr_nextOffset res = 0 \/ sr_nextOffset res < 44160000).
Proof.
  intros W node config fuel currentHeight minAge startOffset targetBoxCount
    w w' res Hpages H.
  unfold scanForEligibleBoxes in H.
  split.
  - intros Hne. destruct (Z.eqb_spec startOffset 0); [congruence|].
    destruct (scanLoop_cursor node config currentHeight minAge targetBoxCount
                Hpages startOffset fuel _ _ _ _ _ _ (Z.le_refl _) H); lia.
  - intros ->. simpl in H.
    exact (scanLoop_cursor node config currentHeight minAge targetBoxCount
             Hpages 44160000 fuel _ _ _ _ _ _ (Z.le_refl _) H).
Qed.

Lemma flaky_pages_within_limit : pagesWithinLimit Script.flaky.
Proof.
  intros offset w w' code data H. unfold Script.flaky in H. simpl in H.
  unfold Script.tick in H.
  destruct (offset =? 5000); [discriminate|].
  destruct (offset =? 4000); inversion H; subst; vm_compute; discriminate.
Qed.

Lemma scan_cursor_moves_down_witness :
  exists res w',
    scanForEligibleBoxes Script.flaky (Script.config 1250000) 10
      1400 500 5000 50 O = Some (res, w')
    /\ (5000 <> 0 -> sr_nextOffset res <= 5000).
Proof.
  assert (H : exists res w',
             scanForEligibleBoxes Script.flaky (Script.config 1250000) 10
               1400 500 5000 50 O = Some (res, w'))
    by (vm_compute; eauto).
  destruct H as [res [w' H]]. exists res, w'. split; [exact H|].
  exact (proj1 (scan_cursor_moves_down Script.World Script.flaky
                  (Script.config 1250000) 10 1400 500 5000 50 O w' res
                  flaky_pages_within_limit H)).
Defined.

(** ** Promotion and merge keep the boxes *)


Lemma promote_keeps_boxes (currentHeight minAge : Z)
  (queue : JSMap.t (list EligibleBox)) :
  Permutation (queuedBoxes queue)
    (fst (promote currentHeight minAge queue)
       ++ queuedBoxes (snd (promote currentHeight minAge queue))).
Proof.
  rewrite promote_filter. simpl. unfold queuedBoxes.
  induction queue as [|[h bs] rest IH]; simpl; [constructor|].
  destruct (due currentHeight minAge (h, bs)); simpl.
  - rewrite <- app_assoc. now apply Permutation_app_head.
  - rewrite IH at 1. rewrite app_assoc.
    rewrite (Permutation_app_comm bs). now rewrite <- app_assoc.
Qed.

(** Promotion loses no box and invents none: the boxes queued before are
    those promoted together with those still queued; and promoting again at
    the same height promotes nothing more and leaves the queue as it is. *)
Theorem promote_conserves_and_settles :
  forall (currentHeight minAge : Z) (queue : JSMap.t (list EligibleBox)),
    Permutation (queuedBoxes queue)
      (fst (promote currentHeight minAge queue)
         ++ queuedBoxes (snd (promote currentHeight minAge queue)))
    /\ promote currentHeight minAge
         (snd (promote currentHeight minAge queue))
       = ([], snd (promote currentHeight minAge queue)).
Proof.
  intros currentHeight minAge queue.
  split; [apply promote_keeps_boxes|].
  rewrite !promote_filter. simpl.
  induction queue as [|[h bs] rest IH]; simpl; [reflexivity|].
  destruct (due currentHeight minAge (h, bs)) eqn:E; simpl.
  - exact IH.
  - rewrite E. simpl. injection IH as IH1 IH2.
    now rewrite IH1, IH2.
Qed.

Lemma mergeScan_keeps_boxes (scanned : JSMap.t (list EligibleBox)) :
  forall queue,
    Permutation (queuedBoxes (mergeScan scanned queue))
      (queuedBoxes queue ++ queuedBoxes scanned).
Proof.
  assert (Hpush : forall h boxes (m : JSMap.t (list EligibleBox)),
             Permutation (flat_map snd (pushToBucket h boxes m))
               (flat_map snd m ++ boxes)).
  { intros h boxes m. induction m as [|[k v] rest IH].
    - rewrite pushToBucket_nil. simpl. now rewrite app_nil_r.
    - rewrite pushToBucket_cons. destruct (k =? h); simpl.
      + rewrite <- !app_assoc. apply Permutation_app_head.
        apply Permutation_app_comm.
      + rewrite <- app_assoc. now apply Permutation_app_head. }
  unfold mergeScan, queuedBoxes.
  induction scanned as [|[h bs] rest IH]; intros queue; simpl.
  - now rewrite app_nil_r.
  - rewrite IH, Hpush. now rewrite <- app_assoc.
Qed.

(** Merging a scan into the queue keeps every box already queued and adds
    every scanned box, each as many times as it was scanned: the boxes of
    the merged queue are those of the queue together with those of the
    scan. *)
Theorem mergeScan_conserves :
  forall (scanned queue : JSMap.t (list EligibleBox)),
    Permutation (queuedBoxes (mergeScan scanned queue))
      (queuedBoxes queue ++ queuedBoxes scanned)
    /\ List.length (queuedBoxes (mergeScan scanned queue))
       = (List.length (queuedBoxes queue)
          + List.length (queuedBoxes scanned))%nat.
Proof.
  intros scanned queue.
  pose proof (mergeScan_keeps_boxes scanned queue) as H.
  split; [exact H|].
  rewrite (Permutation_length H). apply length_app.
Qed.

(** ** What a cycle does to the bot *)

Section CycleEffect.

Context {W : Type}.
Variable node : Collaborators W.
Variable signer : Signer W.
Variable config : Config.
Variable walletAddress : string.
Variable fee : Z.

Lemma cycle_effect (fuel : nat) (bot bot' : BotState) (w w' : W)
  (result : outcome ProcessingResult) :
  runScanAndProcess node signer config walletAddress fee fuel bot w
    = Some (result, bot', w') ->
  match getCurrentHeight node w with
  | (Throw _, _) => bot' = bot
  | (Ok currentHeight, w1) =>
      if currentHeight - lastQueueScanHeight bot >=? 50 then
        exists res w2,
          scanForEligibleBoxes node config fuel currentHeight
            (minStorageRentAgeBlocks config) (lastSearchOffset bot) 50 w1
          = Some (res, w2)
          /\ lastQueueScanHeight bot' = currentHeight
          /\ lastSearchOffset bot' = sr_nextOffset res
          /\ queuedBoxesByHeight bot'
             = snd (promote currentHeight (minStorageRentAgeBlocks config)
                      (mergeScan (sr_boxesByHeight res)
                         (queuedBoxesByHeight bot)))
      else
        lastQueueScanHeight bot' = lastQueueScanHeight bot
        /\ lastSearchOffset bot' = lastSearchOffset bot
        /\ queuedBoxesByHeight bot'
           = snd (promote currentHeight (minStorageRentAgeBlocks config)
                    (queuedBoxesByHeight bot))
  end.
Proof.
  unfold runScanAndProcess. intros H.
  destruct (getCurrentHeight node w) as [[currentHeight|e] w1];
    [|now inversion H].
  destruct (currentHeight - lastQueueScanHeight bot >=? 50).
  - destruct (scanForEligibleBoxes node config fuel currentHeight
                (minStorageRentAgeBlocks config) (lastSearchOffset bot) 50 w1)
      as [[res w2]|]; [|discriminate].
    exists res, w2. split; [reflexivity|]. simpl in H.
    destruct (promote currentHeight (minStorageRentAgeBlocks config)
                (mergeScan (sr_boxesByHeight res) (queuedBoxesByHeight bot)))
      as [nowEligible queue'].
    destruct (Z.of_nat (List.length nowEligible) =? 0);
      [inversion H; auto|].
    destruct (updateWalletBalance node w2) as [o3 w3].
    destruct (processEligibleBoxes node signer config walletAddress fee
                nowEligible w3) as [[r|e] w4].
    + destruct (updateMetrics node w4) as [o5 w5]. inversion H. auto.
    + inversion H. auto.
  - simpl in H.
    destruct (promote currentHeight (minStorageRentAgeBlocks config)
                (queuedBoxesByHeight bot)) as [nowEligible queue'].
    destruct (Z.of_nat (List.length nowEligible) =? 0);
      [inversion H; auto|].
    destruct (updateWalletBalance node w1) as [o3 w3].
    destruct (processEligibleBoxes node signer config walletAddress fee
                nowEligible w3) as [[r|e] w4].
    + destruct (updateMetrics node w4) as [o5 w5]. inversion H. auto.
    + inversion H. auto.
Qed.

Lemma mergeScan_by_creation_height
  (scanned : JSMap.t (list EligibleBox)) :
  forall queue,
    bucketsByCreationHeight scanned ->
    bucketsByCreationHeight queue ->
    bucketsByCreationHeight (mergeScan scanned queue).
Proof.
  unfold mergeScan.
  induction scanned as [|[h bs] rest IH]; intros queue Hs Hq; simpl.
  - exact Hq.
  - apply IH.
    + intros k v b Hin Hb. apply (Hs k v b); [now right|exact Hb].
    + intros k v b Hin Hb.
      destruct (pushToBucket_In _ _ _ _ _ Hin)
        as [Hold|[-> [old [-> Hold]]]].
      * apply (Hq k v b Hold Hb).
      * apply in_app_or in Hb. destruct Hb as [Hb|Hb].
        { destruct Hold as [->|Hold]; [destruct Hb|].
          apply (Hq h old b Hold Hb). }
        { apply (Hs h bs b); [now left|exact Hb]. }
Qed.

Lemma promote_by_creation_height (currentHeight minAge : Z)
  (queue : JSMap.t (list EligibleBox)) :
  bucketsByCreationHeight queue ->
  bucketsByCreationHeight (snd (promote currentHeight minAge queue)).
Proof.
  intros Hq k v b Hin Hb. rewrite promote_filter in Hin. simpl in Hin.
  apply filter_In in Hin. apply (Hq k v b (proj1 Hin) Hb).
Qed.

Lemma reachable_by_creation_height (bot : BotState) :
  reachable node signer config walletAddress fee bot ->
  bucketsByCreationHeight (queuedBoxesByHeight bot).
Proof.
  induction 1 as [|fuel bot bot' w w' result Hreach IH Hrun].
  - intros k v b [].
  - pose proof (cycle_effect _ _ _ _ _ _ Hrun) as Heff.
    destruct (getCurrentHeight node w) as [[currentHeight|e] w1];
      [|now subst].
    destruct (currentHeight - lastQueueScanHeight bot >=? 50).
    + destruct Heff as [res [w2 [Hscan [_ [_ ->]]]]].
      apply promote_by_creation_height.
      apply mergeScan_by_creation_height; [|exact IH].
      exact (proj1 (proj2 (scan_result_well_formed _ _ _ _ _ _ _ _ _ _ _
                             Hscan))).
    + destruct Heff as [_ [_ ->]].
      now apply promote_by_creation_height.
Qed.

End CycleEffect.

(** A scan is made only when the chain is at least 50 blocks past the last
    scan: in such a cycle the last scan height becomes the current height
    and the cursor the one the scan returns; in any other cycle the last
    scan height and the cursor stay as they are and the queue is only
    promoted; a cycle that fails on its height request changes nothing. *)
Theorem cycle_scans_every_50_blocks :
  forall (W : Type) (node : Collaborators W) (signer : Signer W)
         (config : Config) (walletAddress : string) (fee : Z)
         (fuel : nat) (bot bot' : BotState) (w w' : W)
         (result : outcome ProcessingResult),
    runScanAndProcess node signer config walletAddress fee fuel bot w
      = Some (result, bot', w') ->
    match getCurrentHeight node w with
    | (Throw _, _) => bot' = bot
    | (Ok currentHeight, w1) =>
        if currentHeight - lastQueueScanHeight bot >=? 50 then
          exists res w2,
            scanForEligibleBoxes node config fuel currentHeight
              (minStorageRentAgeBlocks config) (lastSearchOffset bot) 50 w1
            = Some (res, w2)
            /\ lastQueueScanHeight bot' = currentHeight
            /\ lastSearchOffset bot' = sr_nextOffset res
            /\ queuedBoxesByHeight bot'
               = snd (promote currentHeight (minStorageRentAgeBlocks config)
                        (mergeScan (sr_boxesByHeight res)
                           (queuedBoxesByHeight bot)))
        else
          lastQueueScanHeight bot' = lastQueueScanHeight bot
          /\ lastSearchOffset bot' = lastSearchOffset bot
          /\ queuedBoxesByHeight bot'
             = snd (promote currentHeight (minStorageRentAgeBlocks config)
                      (queuedBoxesByHeight bot))
    end.
Proof. intros. eapply cycle_effect. eassumption. Qed.

(** When a cycle returns, no bucket left in the queue is due at the height
    the cycle read: every height still queued has
    [height + minAge >= currentHeight]. *)
Theorem cycle_leaves_no_due_bucket :
  forall (W : Type) (node : Collaborators W) (signer : Signer W)
         (config : Config) (walletAddress : string) (fee : Z)
         (fuel : nat) (bot bot' : BotState) (w w1 w' : W)
         (result : outcome ProcessingResult) (currentHeight : Z),
    getCurrentHeight node w = (Ok currentHeight, w1) ->
    runScanAndProcess node signer config walletAddress fee fuel bot w
      = Some (result, bot', w') ->
    forall height boxes,
      In (height, boxes) (queuedBoxesByHeight bot') ->
      height + minStorageRentAgeBlocks config >= currentHeight.
Proof.
  intros W node signer config walletAddress fee fuel bot bot' w w1 w' result
    currentHeight Hheight Hrun height boxes Hin.
  pose proof (cycle_effect _ _ _ _ _ _ _ _ _ _ _ Hrun) as Heff.
  rewrite Hheight in Heff.
  assert (Hq : exists queue,
             queuedBoxesByHeight bot'
             = snd (promote currentHeight (minStorageRentAgeBlocks config)
                      queue)).
  { destruct (currentHeight - lastQueueScanHeight bot >=? 50).
    - destruct Heff as [res [w2 [_ [_ [_ ->]]]]]. eauto.
    - destruct Heff as [_ [_ ->]]. eauto. }
  destruct Hq as [queue Hq]. rewrite Hq, promote_filter in Hin.
  simpl in Hin. apply filter_In in Hin. destruct Hin as [_ Hnot].
  unfold due in Hnot. simpl in Hnot.
  destruct (Z.gtb_spec currentHeight
              (height + minStorageRentAgeBlocks config));
    [discriminate|lia].
Qed.

(** At every state the bot reaches, every queued box sits in the bucket of
    its own creation height. *)
Theorem reachable_buckets_by_creation_height :
  forall (W : Type) (node : Collaborators W) (signer : Signer W)
         (config : Config) (walletAddress : string) (fee : Z)
         (bot : BotState),
    reachable node signer config walletAddress fee bot ->
    bucketsByCreationHeight (queuedBoxesByHeight bot).
Proof. intros. eapply reachable_by_creation_height. eassumption. Qed.

Lemma cycle_scans_every_50_blocks_witness :
  exists result bot' w',
    runScanAndProcess Script.chain Script.signer (Script.config 1250000)
      "9fChange" 1100000 10 initialBotState O = Some (result, bot', w')
    /\ lastQueueScanHeight bot' = 1400.
Proof.
  assert (H : exists result bot' w',
             runScanAndProcess Script.chain Script.signer
               (Script.config 1250000) "9fChange" 1100000 10
               initialBotState O = Some (result, bot', w'))
    by (vm_compute; eauto).
  destruct H as [result [bot' [w' H]]]. exists result, bot', w'.
  split; [exact H|].
  pose proof (cycle_scans_every_50_blocks Script.World Script.chain
                Script.signer (Script.config 1250000) "9fChange" 1100000 10
                initialBotState bot' O w' result H) as T.
  change (getCurrentHeight Script.chain O) with (@Ok Z 1400, 1%nat) in T.
  cbv iota beta in T.
  change (1400 - lastQueueScanHeight initialBotState >=? 50) with true in T.
  cbv iota in T.
  destruct T as [res [w2 [_ [Hlast _]]]]. exact Hlast.
Defined.

Lemma cycle_leaves_no_due_bucket_witness :
  exists result bot' w',
    runScanAndProcess Script.chain Script.signer (Script.config 1250000)
      "9fChange" 1100000 10 initialBotState O = Some (result, bot', w')
    /\ queuedBoxesByHeight bot' <> []
    /\ forall height boxes,
         In (height, boxes) (queuedBoxesByHeight bot') ->
         height + 500 >= 1400.
Proof.
  assert (H : exists result bot' w',
             runScanAndProcess Script.chain Script.signer
               (Script.config 1250000) "9fChange" 1100000 10
               initialBotState O = Some (result, bot', w')
             /\ queuedBoxesByHeight bot' <> [])
    by (vm_compute; do 3 eexists; split; [reflexivity|discriminate]).
  destruct H as [result [bot' [w' [H Hne]]]]. exists result, bot', w'.
  split; [exact H|]. split; [exact Hne|].
  exact (cycle_leaves_no_due_bucket Script.World Script.chain Script.signer
           (Script.config 1250000) "9fChange" 1100000 10 initialBotState
           bot' O 1%nat w' result 1400 eq_refl H).
Defined.

Lemma reachable_buckets_by_creation_height_witness :
  exists result bot' w',
    runScanAndProcess Script.chain Script.signer (Script.config 1250000)
      "9fChange" 1100000 10 initialBotState O = Some (result, bot', w')
    /\ queuedBoxesByHeight bot' <> []
    /\ bucketsByCreationHeight (queuedBoxesByHeight bot').
Proof.
  assert (H : exists result bot' w',
             runScanAndProcess Script.chain Script.signer
               (Script.config 1250000) "9fChange" 1100000 10
               initialBotState O = Some (result, bot', w')
             /\ queuedBoxesByHeight bot' <> [])
    by (vm_compute; do 3 eexists; split; [reflexivity|discriminate]).
  destruct H as [result [bot' [w' [H Hne]]]]. exists result, bot', w'.
  split; [exact H|]. split; [exact Hne|].
  apply (reachable_buckets_by_creation_height Script.World Script.chain
           Script.signer (Script.config 1250000) "9fChange" 1100000).
  exact (reachable_cycle Script.chain Script.signer (Script.config 1250000)
           "9fChange" 1100000 10 initialBotState bot' O w' result
           (reachable_initial _ _ _ _ _) H).
Defined.

(** ** Summaries *)

Section Summaries.

Context {W : Type}.
Variable node : Collaborators W.
Variable signer : Signer W.
Variable config : Config.
Variable walletAddress : string.
Variable fee : Z.

Lemma build_rent (boxes : list EligibleBox) (changeAddress : string)
  (currentHeight : Z) (ergoNode : option (string -> M W (option BoxData)))
  (w w' : W) (built : BuildResult) :
  buildStorageRentTransaction fee boxes changeAddress currentHeight ergoNode w
    = (Ok built, w') ->
  totalRentCollected built = sumBy rentFee boxes.
Proof.
  intros H. rewrite build_cases in H.
  destruct (createFleetInputs ergoNode 0 boxes w) as [[ins|e] w1];
    [|discriminate].
  destruct (sumBy rentFee boxes <=? fee); [discriminate|].
  now inversion H.
Qed.

Lemma processBatch_shape (boxes : list EligibleBox)
  (batchIndex totalBatches : Z) (w : W) :
  exists w',
    processBatch node signer config walletAddress fee boxes batchIndex
      totalBatches w = (Ok (batchDone config boxes), w')
    \/ exists e,
         processBatch node signer config walletAddress fee boxes batchIndex
           totalBatches w = (Ok (batchFailed batchIndex e), w').
Proof.
  unfold processBatch, try_catch.
  match goal with
  | |- context [let (o, s') := ?body w in _] =>
      destruct (body w) as [[r|e] w'] eqn:E
  end; [|exists w'; right; exists e; reflexivity].
  exists w'. left. f_equal. f_equal.
  unfold bind in E.
  destruct (getCurrentHeight node w) as [[h|e] w1]; [|discriminate].
  destruct (buildStorageRentTransaction fee boxes
              (getWalletAddress walletAddress) h (Some (getBoxById node)) w1)
    as [[built|e] w2] eqn:Ebuild; [|discriminate].
  pose proof (build_rent _ _ _ _ _ _ _ Ebuild) as Hrent.
  destruct (negb (v_valid (validateTransaction boxes
                             (Some (unsignedTx built)))));
    [discriminate|].
  unfold batchDone. rewrite <- Hrent.
  destruct (dryRun config); [now inversion E|].
  destruct (fromUnsigned signer (unsignedTx built) w2) as [[signed|e] w3];
    [|discriminate].
  destruct (truthy (fst signed)); [|discriminate].
  destruct (insertTransaction node _ w3) as [[u|e] w4]; [|discriminate].
  destruct (for_each boxes _ w4) as [[u'|e] w5]; [|discriminate].
  now inversion E.
Qed.

Lemma processBatches_accounts (batches : list (list EligibleBox)) :
  forall (i total : Z) (result result' : ProcessingResult) (w w' : W),
    processBatches node signer config walletAddress fee batches i total
      result w = (Ok result', w') ->
    successfulTransactions result' + failedTransactions result'
      = successfulTransactions result + failedTransactions result
        + nonEmptyBatches batches
    /\ Z.of_nat (List.length (errors result')) - failedTransactions result'
       = Z.of_nat (List.length (errors result)) - failedTransactions result
    /\ processedBoxes result <= processedBoxes result'
    /\ processedBoxes result'
       <= processedBoxes result
          + Z.of_nat (List.length (List.concat batches))
    /\ successfulTransactions result <= successfulTransactions result'
    /\ failedTransactions result <= failedTransactions result'.
Proof.
  unfold nonEmptyBatches.
  induction batches as [|batch rest IH];
    intros i total result result' w w' H.
  - inversion H; subst. simpl. lia.
  - cbn [processBatches] in H. cbn [filter List.concat].
    rewrite length_app.
    destruct (Z.eqb_spec (Z.of_nat (List.length batch)) 0) as [Hz|Hnz].
    + apply IH in H. simpl negb. cbv iota. lia.
    + unfold bind at 1 in H. unfold try_catch at 1 in H.
      unfold bind at 1 in H.
      destruct (processBatch_shape batch (i + 1) total w)
        as [w1 [Hb|[e Hb]]]; rewrite Hb in H;
        unfold bind in H;
        (destruct (i <? total - 1); unfold delay, ret in H;
         apply IH in H; simpl in H; simpl negb; cbv iota;
         simpl List.length; rewrite ?length_app in H;
         simpl List.length in H; lia).
Qed.

End Summaries.

(** Every batch ends in one of two summaries: the batch went through (all
    its boxes processed, one successful transaction, the rent of the boxes
    collected, the configured fee paid, no error), or it failed (nothing
    processed, one failed transaction, one error naming the batch). *)
Theorem processBatch_one_outcome :
  forall (W : Type) (node : Collaborators W) (signer : Signer W)
         (config : Config) (walletAddress : string) (fee : Z)
         (boxes : list EligibleBox) (batchIndex totalBatches : Z) (w : W),
    exists w',
      processBatch node signer config walletAddress fee boxes batchIndex
        totalBatches w = (Ok (batchDone config boxes), w')
      \/ exists e,
           processBatch node signer config walletAddress fee boxes
             batchIndex totalBatches w
           = (Ok (batchFailed batchIndex e), w').
Proof. intros. apply processBatch_shape. Qed.

(** The summary of the processing accounts for every batch: for a batch
    size of at least 1, the successful and the failed transactions together
    are as many as the batches, the error list has one entry per failed
    transaction, and the boxes processed are no more than the boxes
    given. *)
Theorem processEligibleBoxes_accounts :
  forall (W : Type) (node : Collaborators W) (signer : Signer W)
         (config : Config) (walletAddress : string) (fee : Z)
         (eligibleBoxes : list EligibleBox) (w w' : W)
         (result : ProcessingResult),
    1 <= maxBoxesPerTx config ->
    processEligibleBoxes node signer config walletAddress fee eligibleBoxes w
      = (Ok result, w') ->
    successfulTransactions result + failedTransactions result
      = Z.of_nat (List.length (createTransactionBatches config eligibleBoxes))
    /\ Z.of_nat (List.length (errors result)) = failedTransactions result
    /\ 0 <= processedBoxes result <= Z.of_nat (List.length eligibleBoxes)
    /\ 0 <= successfulTransactions result
    /\ 0 <= failedTransactions result.
Proof.
  intros W node signer config walletAddress fee eligibleBoxes w w' result
    Hmax H.
  destruct (createTransactionBatches_partition config eligibleBoxes Hmax)
    as [Hcat Hall].
  assert (Hnon : nonEmptyBatches (createTransactionBatches config eligibleBoxes)
                 = Z.of_nat (List.length
                               (createTransactionBatches config eligibleBoxes))).
  { unfold nonEmptyBatches. f_equal. f_equal.
    apply forallb_filter_id. apply forallb_forall. intros batch Hin.
    rewrite Forall_forall in Hall. specialize (Hall batch Hin).
    destruct (Z.eqb_spec (Z.of_nat (List.length batch)) 0);
      [lia|reflexivity]. }
  unfold processEligibleBoxes in H.
  destruct (Z.eqb_spec (Z.of_nat (List.length eligibleBoxes)) 0) as [Hz|Hnz].
  - inversion H; subst.
    destruct eligibleBoxes; [|simpl in Hz; lia].
    simpl. lia.
  - unfold try_catch at 1 in H. unfold bind at 1 in H.
    destruct (saveAll_returns node eligibleBoxes w) as [w1 Hsave].
    rewrite Hsave in H.
    unfold validateBoxes, bind, ret in H. simpl in H.
    rewrite filter_all_valid in H.
    destruct (Z.eqb_spec (Z.of_nat (List.length eligibleBoxes)) 0);
      [lia|].
    destruct (processBatches node signer config walletAddress fee
                (createTransactionBatches config eligibleBoxes) 0
                (Z.of_nat (List.length
                             (createTransactionBatches config eligibleBoxes)))
                emptyResult w1) as [[r|e] w2] eqn:E; [|discriminate].
    inversion H; subst.
    apply processBatches_accounts in E. rewrite Hnon, Hcat in E.
    simpl in E. lia.
Qed.

(** In dry-run mode a batch whose transaction was built is reported as
    done as soon as it is built: the signer is not called and nothing is
    written, the world is the one the build left. *)
Theorem processBatch_dry_run :
  forall (W : Type) (node : Collaborators W) (signer : Signer W)
         (config : Config) (walletAddress : string) (fee : Z)
         (boxes : list EligibleBox) (batchIndex totalBatches : Z)
         (w w1 w2 : W) (currentHeight : Z) (built : BuildResult),
    dryRun config = true ->
    boxes <> [] ->
    getCurrentHeight node w = (Ok currentHeight, w1) ->
    buildStorageRentTransaction fee boxes walletAddress currentHeight
      (Some (getBoxById node)) w1 = (Ok built, w2) ->
    processBatch node signer config walletAddress fee boxes batchIndex
      totalBatches w = (Ok (batchDone config boxes), w2).
Proof.
  intros W node signer config walletAddress fee boxes batchIndex totalBatches
    w w1 w2 currentHeight built Hdry Hne Hheight Hbuild.
  pose proof (build_rent fee _ _ _ _ _ _ _ Hbuild) as Hrent.
  unfold processBatch, try_catch, bind.
  rewrite Hheight. unfold getWalletAddress. rewrite Hbuild.
  unfold validateTransaction.
  destruct boxes as [|b rest]; [congruence|].
  destruct (Z.eqb_spec (Z.of_nat (List.length (b :: rest))) 0) as [Hz|_];
    [simpl List.length in Hz; lia|].
  simpl negb. cbv iota. rewrite Hdry. unfold ret, batchDone.
  now rewrite Hrent.
Qed.

Lemma processEligibleBoxes_accounts_witness :
  exists result w',
    processEligibleBoxes (Script.quiet 1600) Script.signer
      (Script.config 1250000) "9fChange" 1100000
      [Script.box "a1" 1000 500000000 131250000] O = (Ok result, w')
    /\ successfulTransactions result + failedTransactions result
       = Z.of_nat (List.length
                     (createTransactionBatches (Script.config 1250000)
                        [Script.box "a1" 1000 500000000 131250000]))
    /\ Z.of_nat (List.length (errors result)) = failedTransactions result.
Proof.
  assert (H : exists result w',
             processEligibleBoxes (Script.quiet 1600) Script.signer
               (Script.config 1250000) "9fChange" 1100000
               [Script.box "a1" 1000 500000000 131250000] O
             = (Ok result, w'))
    by (vm_compute; eauto).
  destruct H as [result [w' H]]. exists result, w'. split; [exact H|].
  assert (Hmax : 1 <= maxBoxesPerTx (Script.config 1250000))
    by (vm_compute; discriminate).
  pose proof (processEligibleBoxes_accounts Script.World (Script.quiet 1600)
                Script.signer (Script.config 1250000) "9fChange" 1100000
                [Script.box "a1" 1000 500000000 131250000] O w' result
                Hmax H) as T.
  split; [exact (proj1 T)|exact (proj1 (proj2 T))].
Defined.

Lemma processBatch_dry_run_witness :
  processBatch (Script.holding 1600 1000 500000000) Script.signer
    Script.dryConfig "9fChange" 1100000 Script.oneBox 1 1 O
  = (Ok (batchDone Script.dryConfig Script.oneBox), 2%nat).
Proof.
  apply (processBatch_dry_run Script.World
           (Script.holding 1600 1000 500000000) Script.signer
           Script.dryConfig "9fChange" 1100000 Script.oneBox 1 1
           O 1%nat 2%nat 1600 Script.oneBoxBuilt).
  - reflexivity.
  - discriminate.
  - reflexivity.
  - vm_compute. reflexivity.
Defined.
